(** * RedshiftToS3Operator: a shallow embedding and its specification

    Source: airflow/providers/amazon/aws/transfers/redshift_to_s3.py

    The operator validates its arguments in [__init__], builds one UNLOAD
    statement in [_build_unload_query] and hands it to one of two hooks in
    [execute].  Python [str] values are modelled as Rocq strings whose
    characters are the code points below 256.  Dictionaries are finite maps
    keyed by strings. *)

From Stdlib Require Import Ascii String List Arith Lia.
From stdpp Require Import base option list strings gmap.

(** ** Python string primitives *)

Module PyStr.

Definition squote : ascii := "'"%char.
Definition newline : ascii := "010"%char.

(** [bool(s)] for a [str]: only the empty string is falsy. *)
Definition truthy (s : string) : bool :=
  match s with
  | EmptyString => false
  | String _ _ => true
  end.

(** [bool(x)] for an [Optional[str]]: [None] and [""] are falsy. *)
Definition truthy_opt (o : option string) : bool :=
  match o with
  | None => false
  | Some s => truthy s
  end.

(** [c.upper()] on one character: a..z go to A..Z.  The operator only
    compares an upper-cased option with the ASCII text HEADER, and no
    character outside a..z has an upper case among those letters, so the
    other characters are left as they are. *)
Definition upper_char (c : ascii) : ascii :=
  let n := nat_of_ascii c in
  if (97 <=? n)%nat && (n <=? 122)%nat then ascii_of_nat (n - 32) else c.

(** [s.upper()] *)
Fixpoint upper (s : string) : string :=
  match s with
  | EmptyString => EmptyString
  | String c s' => String (upper_char c) (upper s')
  end.

(** [c.isspace()] below 256: TAB, LF, VT, FF, CR, the separators
    0x1c..0x1f, the space, NEL (0x85) and the no-break space (0xa0). *)
Definition is_space (c : ascii) : bool :=
  let n := nat_of_ascii c in
  ((9 <=? n)%nat && (n <=? 13)%nat)
  || ((28 <=? n)%nat && (n <=? 32)%nat)
  || (n =? 133)%nat || (n =? 160)%nat.

(** [s.lstrip()] *)
Fixpoint lstrip (s : string) : string :=
  match s with
  | EmptyString => EmptyString
  | String c s' => if is_space c then lstrip s' else s
  end.

(** [s.rstrip()]: a character is dropped when it is white space and
    everything to its right has been dropped. *)
Fixpoint rstrip (s : string) : string :=
  match s with
  | EmptyString => EmptyString
  | String c s' =>
      match rstrip s' with
      | EmptyString => if is_space c then EmptyString else String c EmptyString
      | r => String c r
      end
  end.

(** [s.strip()] *)
Definition strip (s : string) : string := rstrip (lstrip s).

(** [sep.join(parts)] *)
Fixpoint join (sep : string) (parts : list string) : string :=
  match parts with
  | [] => EmptyString
  | [p] => p
  | p :: ps => p +:+ sep +:+ join sep ps
  end.

(** [needle in s] for two strings. *)
Fixpoint contains (needle s : string) : bool :=
  String.prefix needle s
  || match s with
     | EmptyString => false
     | String _ s' => contains needle s'
     end.

(** Every character of [s] is matched by the regular expression [.]
    (any character but the line feed). *)
Fixpoint no_newline (s : string) : bool :=
  match s with
  | EmptyString => true
  | String c s' => negb (Ascii.eqb c newline) && no_newline s'
  end.

End PyStr.

(** ** [re.sub(r"''(.+)''", r"'\1'", s)]

    The pattern is two quotes, a greedy non-empty run of characters other
    than the line feed (group 1), two quotes.  The matcher below follows the
    backtracking order of the [re] module: a greedy repetition first tries
    to take one more character and only on failure tries what follows it. *)

Module Re.
Import PyStr.

(** [.*''] at the head of [s]: the text taken by [.*] and the text left
    after the closing quotes. *)
Fixpoint dot_star_quotes (s : string) : option (string * string) :=
  match s with
  | EmptyString => None
  | String c rest =>
      let longer :=
        if Ascii.eqb c newline then None else dot_star_quotes rest in
      match longer with
      | Some (inner, post) => Some (String c inner, post)
      | None =>
          match rest with
          | String c' post =>
              if Ascii.eqb c squote && Ascii.eqb c' squote
              then Some (EmptyString, post) else None
          | EmptyString => None
          end
      end
  end.

(** [.+''] at the head of [s]. *)
Definition dot_plus_quotes (s : string) : option (string * string) :=
  match s with
  | EmptyString => None
  | String c rest =>
      if Ascii.eqb c newline then None
      else
        match dot_star_quotes rest with
        | Some (inner, post) => Some (String c inner, post)
        | None => None
        end
  end.

(** The whole pattern at the head of [s]: group 1 and the text after the
    match. *)
Definition match_here (s : string) : option (string * string) :=
  match s with
  | String c1 (String c2 rest) =>
      if Ascii.eqb c1 squote && Ascii.eqb c2 squote
      then dot_plus_quotes rest else None
  | _ => None
  end.

(** The substitution scans from the left; after a match the scan resumes
    behind it, so the replacement text is never scanned again.  [fuel]
    bounds the number of scan steps; the length of the text is enough. *)
Fixpoint sub_fuel (fuel : nat) (s : string) : string :=
  match fuel with
  | O => s
  | S fuel' =>
      match match_here s with
      | Some (inner, post) =>
          String squote (inner +:+ String squote (sub_fuel fuel' post))
      | None =>
          match s with
          | EmptyString => EmptyString
          | String c rest => String c (sub_fuel fuel' rest)
          end
      end
  end.

Definition sub_quotes (s : string) : string :=
  sub_fuel (String.length s) s.

End Re.

(** ** Exceptions and collaborators *)

(** The exceptions the operator meets: the two it raises itself in
    [__init__], and whatever a hook raises during [execute]. *)
Inductive exception : Type :=
  | ValueError (msg : string)
  | AirflowException (msg : string)
  | HookError (msg : string).

(** The [verify] argument: [bool | str | None]. *)
Inductive verify_arg : Type :=
  | VerifyNone
  | VerifyFlag (b : bool)
  | VerifyBundle (path : string).

(** A value of [Connection.extra_dejson].  [execute] looks at such a value
    twice: it tests its truth value and formats it into an f-string.  A
    string is truthy when non-empty and formats as itself; any other JSON
    value is kept as these two observations. *)
Inductive extra_value : Type :=
  | ExtraStr (s : string)
  | ExtraOther (truth : bool) (text : string).

Definition extra_truthy (v : extra_value) : bool :=
  match v with
  | ExtraStr s => PyStr.truthy s
  | ExtraOther truth _ => truth
  end.

Definition extra_format (v : extra_value) : string :=
  match v with
  | ExtraStr s => s
  | ExtraOther _ text => text
  end.

(** [airflow.models.Connection], as far as [execute] reads it. *)
Record connection : Type := Connection {
  extra_dejson : gmap string extra_value
}.

(** [botocore.credentials.ReadOnlyCredentials] *)
Record credentials : Type := ReadOnlyCredentials {
  access_key : string;
  secret_key : string;
  token : option string
}.

(** [f"{x}"] for an [Optional[str]]. *)
Definition format_opt (o : option string) : string :=
  match o with
  | Some s => s
  | None => "None"
  end.

Section Operator.

(** Python objects the operator passes on without looking inside: the
    bind [parameters] and the values of [redshift_data_api_kwargs]. *)
Context {pyobj : Type}.

(** *** Constructor arguments *)

Record init_args : Type := InitArgs {
  arg_s3_bucket : string;
  arg_s3_key : string;
  arg_schema : option string;
  arg_table : option string;
  arg_select_query : option string;
  arg_redshift_conn_id : string;
  arg_aws_conn_id : option string;
  arg_verify : verify_arg;
  arg_unload_options : option (list string);
  arg_autocommit : bool;
  arg_include_header : bool;
  arg_parameters : pyobj;
  arg_table_as_file_name : bool;
  arg_redshift_data_api_kwargs : option (gmap string pyobj)
}.

(** *** The attributes of a constructed operator *)

Record operator : Type := Operator {
  s3_bucket : string;
  s3_key : string;
  schema : option string;
  table : option string;
  redshift_conn_id : string;
  aws_conn_id : option string;
  verify : verify_arg;
  unload_options : list string;
  autocommit : bool;
  include_header : bool;
  parameters : pyobj;
  table_as_file_name : bool;
  redshift_data_api_kwargs : gmap string pyobj;
  select_query : string
}.

(** *** [__init__] *)

Definition missing_source_msg : string :=
  "Please provide both `schema` and `table` params or `select_query` to fetch the data.".

Definition forbidden_kwarg_msg (arg : string) : string :=
  "Cannot include param '" +:+ arg +:+ "' in Redshift Data API kwargs".

(** [bool(d)] for a dict. *)
Definition dict_truthy (d : gmap string pyobj) : bool :=
  negb (Nat.eqb (size d) 0).

(** [arg in d] for a dict. *)
Definition dict_has (arg : string) (d : gmap string pyobj) : bool :=
  bool_decide (is_Some (d !! arg)).

(** Lines 125-132: the select text, or the [ValueError]. *)
Definition init_select_query (a : init_args) : exception + string :=
  let from_table :=
    if PyStr.truthy_opt (arg_schema a) && PyStr.truthy_opt (arg_table a)
    then inr ("SELECT * FROM " +:+ format_opt (arg_schema a) +:+ "."
                +:+ format_opt (arg_table a))
    else inl (ValueError missing_source_msg) in
  match arg_select_query a with
  | Some q => if PyStr.truthy q then inr q else from_table
  | None => from_table
  end.

(** [x in l] for a list of strings. *)
Definition list_has (x : string) (l : list string) : bool :=
  existsb (String.eqb x) l.

(** The list comprehension of line 134. *)
Definition normalized_options (opts : list string) : list string :=
  map (fun uo => PyStr.strip (PyStr.upper uo)) opts.

(** Lines 134-135. *)
Definition init_unload_options (include_header : bool) (opts : list string)
  : list string :=
  if include_header && negb (list_has "HEADER" (normalized_options opts))
  then opts ++ ["HEADER"] else opts.

(** Lines 138-140: the loop over the forbidden names. *)
Fixpoint check_kwargs (names : list string) (d : gmap string pyobj)
  : exception + unit :=
  match names with
  | [] => inr tt
  | arg :: names' =>
      if dict_has arg d
      then inl (AirflowException (forbidden_kwarg_msg arg))
      else check_kwargs names' d
  end.

(** Lines 137-140. *)
Definition init_check_kwargs (d : gmap string pyobj) : exception + unit :=
  if dict_truthy d then check_kwargs ["sql"; "parameters"] d else inr tt.

(** The body of [__init__] after the call of the base class. *)
Definition init (a : init_args) : exception + operator :=
  let key :=
    if PyStr.truthy_opt (arg_table a) && arg_table_as_file_name a
    then arg_s3_key a +:+ "/" +:+ format_opt (arg_table a) +:+ "_"
    else arg_s3_key a in
  let options := default [] (arg_unload_options a) in
  let kwargs := default ∅ (arg_redshift_data_api_kwargs a) in
  match init_select_query a with
  | inl e => inl e
  | inr query =>
      let options' := init_unload_options (arg_include_header a) options in
      match init_check_kwargs kwargs with
      | inl e => inl e
      | inr _ =>
          inr {| s3_bucket := arg_s3_bucket a;
                 s3_key := key;
                 schema := arg_schema a;
                 table := arg_table a;
                 redshift_conn_id := arg_redshift_conn_id a;
                 aws_conn_id := arg_aws_conn_id a;
                 verify := arg_verify a;
                 unload_options := options';
                 autocommit := arg_autocommit a;
                 include_header := arg_include_header a;
                 parameters := arg_parameters a;
                 table_as_file_name := arg_table_as_file_name a;
                 redshift_data_api_kwargs := kwargs;
                 select_query := query |}
      end
  end.

End Operator.

Arguments init_args : clear implicits.
Arguments operator : clear implicits.

(** ** [_build_unload_query] and [execute] *)

(** The two hooks [execute] chooses between, each built from
    [self.redshift_conn_id]. *)
Inductive redshift_hook : Type :=
  | RedshiftDataHook (aws_conn_id : string)
  | RedshiftSQLHook (redshift_conn_id : string).

(** What [execute] does to the outside world, in order. *)
Inductive event {pyobj : Type} : Type :=
  | GetConnection (conn_id : string)
  | GetCredentials (aws_conn_id : option string) (verify : verify_arg)
  | LogInfo (msg : string)
  | ExecuteQuery (aws_conn_id : string) (sql : string) (parameters : pyobj)
      (kwargs : gmap string pyobj)
  | Run (redshift_conn_id : string) (sql : string) (autocommit : bool)
      (parameters : pyobj).
Arguments event : clear implicits.

(** A computation that leaves a trace of events and ends with a value or
    with the exception that stopped it. *)
Definition action (pyobj A : Type) : Type :=
  list (event pyobj) * (exception + A).

Definition ret {pyobj A : Type} (x : A) : action pyobj A := ([], inr x).

Definition bind {pyobj A B : Type} (m : action pyobj A)
    (k : A -> action pyobj B) : action pyobj B :=
  match m with
  | (tr, inl e) => (tr, inl e)
  | (tr, inr x) => let '(tr', r) := k x in (tr ++ tr', r)
  end.

Notation "'let!' x := m 'in' k" := (bind m (fun x => k))
  (at level 10, x name, m at level 100, k at level 200).

(** One call of a collaborator: the event and what the call answered. *)
Definition call {pyobj A : Type} (ev : event pyobj) (answer : exception + A)
  : action pyobj A := ([ev], answer).

Definition trace {pyobj A : Type} (m : action pyobj A) : list (event pyobj) :=
  fst m.

Definition outcome {pyobj A : Type} (m : action pyobj A) : exception + A :=
  snd m.

Section Execute.

Context {pyobj : Type}.

(** The hooks and helpers [execute] relies on; none of them belongs to
    this module.  Each answers with its result or with the exception it
    raises. *)
Record collaborators : Type := Collaborators {
  (* S3Hook.get_connection(conn_id=...) *)
  get_connection : string -> exception + connection;
  (* S3Hook(aws_conn_id=..., verify=...).get_credentials() *)
  get_credentials : option string -> verify_arg -> exception + credentials;
  (* airflow.providers.amazon.aws.utils.redshift.build_credentials_block *)
  build_credentials_block : credentials -> string;
  (* RedshiftDataHook(aws_conn_id=...).execute_query(sql=..., parameters=..., **kwargs) *)
  execute_query :
    string -> string -> pyobj -> gmap string pyobj -> exception + unit;
  (* RedshiftSQLHook(redshift_conn_id=...).run(sql, autocommit, parameters=...) *)
  run : string -> string -> bool -> pyobj -> exception + unit
}.

Definition unload_template (bucket select_query s3_key credentials_block
    unload_options : string) : string :=
  String PyStr.newline
    ("                    UNLOAD ($$" +:+ select_query +:+ "$$)"
     +:+ String PyStr.newline
    ("                    TO 's3://" +:+ bucket +:+ "/" +:+ s3_key +:+ "'"
     +:+ String PyStr.newline
    ("                    credentials"
     +:+ String PyStr.newline
    ("                    '" +:+ credentials_block +:+ "'"
     +:+ String PyStr.newline
    ("                    " +:+ unload_options +:+ ";"
     +:+ String PyStr.newline
     "        "))))).

(** [_build_unload_query] *)
Definition _build_unload_query (self : operator pyobj)
    (credentials_block select_query s3_key unload_options : string) : string :=
  let select_query := Re.sub_quotes select_query in
  unload_template (s3_bucket self) select_query s3_key credentials_block
    unload_options.

Definition options_separator : string :=
  String PyStr.newline (String "009" (String "009" (String "009" ""))).

(** Lines 161-167: the credentials clause. *)
Definition resolve_credentials (env : collaborators) (self : operator pyobj)
  : action pyobj string :=
  let! conn :=
    if PyStr.truthy_opt (aws_conn_id self)
    then let! c := call (GetConnection (format_opt (aws_conn_id self)))
                     (get_connection env (format_opt (aws_conn_id self))) in
         ret (Some c)
    else ret None in
  let role_arn :=
    match conn with
    | Some c =>
        match extra_dejson c !! "role_arn" with
        | Some v => if extra_truthy v then Some v else None
        | None => None
        end
    | None => None
    end in
  match role_arn with
  | Some v => ret ("aws_iam_role=" +:+ extra_format v)
  | None =>
      let! creds := call (GetCredentials (aws_conn_id self) (verify self))
                      (get_credentials env (aws_conn_id self) (verify self)) in
      ret (build_credentials_block env creds)
  end.

(** The statement [execute] builds from a credentials clause. *)
Definition unload_query (self : operator pyobj) (credentials_block : string)
  : string :=
  let unload_options := PyStr.join options_separator (unload_options self) in
  _build_unload_query self credentials_block (select_query self)
    (s3_key self) unload_options.

(** Lines 157-160: the hook is chosen from the truth value of the
    Data API arguments. *)
Definition choose_hook (self : operator pyobj) : redshift_hook :=
  if dict_truthy (redshift_data_api_kwargs self)
  then RedshiftDataHook (redshift_conn_id self)
  else RedshiftSQLHook (redshift_conn_id self).

(** Lines 176-181: the statement goes to the chosen hook. *)
Definition submit (env : collaborators) (self : operator pyobj)
    (hook : redshift_hook) (sql : string) : action pyobj unit :=
  match hook with
  | RedshiftDataHook conn_id =>
      call (ExecuteQuery conn_id sql (parameters self)
              (redshift_data_api_kwargs self))
        (execute_query env conn_id sql (parameters self)
           (redshift_data_api_kwargs self))
  | RedshiftSQLHook conn_id =>
      call (Run conn_id sql (autocommit self) (parameters self))
        (run env conn_id sql (autocommit self) (parameters self))
  end.

Definition log_info (msg : string) : action pyobj unit :=
  call (LogInfo msg) (inr tt).

(** [execute] *)
Definition execute (env : collaborators) (self : operator pyobj)
  : action pyobj unit :=
  let redshift_hook := choose_hook self in
  let! credentials_block := resolve_credentials env self in
  let unload_query := unload_query self credentials_block in
  let! _ := log_info "Executing UNLOAD command..." in
  let! _ := submit env self redshift_hook unload_query in
  log_info "UNLOAD command complete...".

End Execute.

Arguments collaborators : clear implicits.

(** ** The rewriting rule of [_build_unload_query], stated on its own *)

Module Rule.
Import PyStr.

Definition two_quotes : string := String squote (String squote "").

(** [s] begins with an occurrence of the pattern: two quotes, the
    non-empty text [inner] free of line feeds, two quotes, then [post]. *)
Definition matches_here (s inner post : string) : Prop :=
  s = two_quotes +:+ inner +:+ two_quotes +:+ post
  /\ inner <> "" /\ no_newline inner = true.

(** The occurrence at the head of [s] with the longest [inner]. *)
Definition greedy_match_here (s inner post : string) : Prop :=
  matches_here s inner post
  /\ forall inner' post', matches_here s inner' post' ->
       String.length inner' <= String.length inner.

(** One pass from left to right: at each position the longest occurrence
    is replaced by quote, [inner], quote and the pass goes on behind it;
    where no occurrence begins the character is copied. *)
Inductive rewrites_to : string -> string -> Prop :=
  | rewrites_empty : rewrites_to "" ""
  | rewrites_match s inner post out :
      greedy_match_here s inner post ->
      rewrites_to post out ->
      rewrites_to s (String squote (inner +:+ String squote out))
  | rewrites_skip c rest out :
      (forall inner post, ~ matches_here (String c rest) inner post) ->
      rewrites_to rest out ->
      rewrites_to (String c rest) (String c out).





End Rule.

(** ** Vocabulary of the specification *)

Section Vocabulary.

Context {pyobj : Type}.

(** A select query is resolvable when one was supplied and is not empty. *)
Definition query_resolvable (a : init_args pyobj) : bool :=
  PyStr.truthy_opt (arg_select_query a).

(** A source table is resolvable when schema and table are both supplied
    and not empty. *)
Definition table_resolvable (a : init_args pyobj) : bool :=
  PyStr.truthy_opt (arg_schema a) && PyStr.truthy_opt (arg_table a).

Definition exactly_one_source (a : init_args pyobj) : bool :=
  xorb (query_resolvable a) (table_resolvable a).

Definition at_least_one_source (a : init_args pyobj) : bool :=
  query_resolvable a || table_resolvable a.

(** The arguments [a] with another [select_query]. *)
Definition with_select_query (q : option string) (a : init_args pyobj)
  : init_args pyobj :=
  {| arg_s3_bucket := arg_s3_bucket a;
     arg_s3_key := arg_s3_key a;
     arg_schema := arg_schema a;
     arg_table := arg_table a;
     arg_select_query := q;
     arg_redshift_conn_id := arg_redshift_conn_id a;
     arg_aws_conn_id := arg_aws_conn_id a;
     arg_verify := arg_verify a;
     arg_unload_options := arg_unload_options a;
     arg_autocommit := arg_autocommit a;
     arg_include_header := arg_include_header a;
     arg_parameters := arg_parameters a;
     arg_table_as_file_name := arg_table_as_file_name a;
     arg_redshift_data_api_kwargs := arg_redshift_data_api_kwargs a |}.

(** The first forbidden name found in the Data API arguments. *)
Definition offending_key (d : gmap string pyobj) : string :=
  if dict_has "sql" d then "sql" else "parameters".

(** Calls of one of the two Redshift hooks. *)
Definition is_submission (ev : event pyobj) : bool :=
  match ev with
  | ExecuteQuery _ _ _ _ | Run _ _ _ _ => true
  | _ => false
  end.

(** Calls of [S3Hook.get_credentials]. *)
Definition is_get_credentials (ev : event pyobj) : bool :=
  match ev with
  | GetCredentials _ _ => true
  | _ => false
  end.

(** The hook call [execute] makes once it has the credentials clause. *)
Definition submission (env : collaborators pyobj) (self : operator pyobj)
    (credentials_block : string) : action pyobj unit :=
  submit env self (choose_hook self) (unload_query self credentials_block).

End Vocabulary.

(** A case-insensitive match of two option texts. *)
Definition same_ignoring_case (a b : string) : bool :=
  String.eqb (PyStr.upper a) (PyStr.upper b).

(** How many options match "HEADER" ignoring case. *)
Definition count_header_ignoring_case (opts : list string) : nat :=
  length (List.filter (same_ignoring_case "HEADER") opts).

(** How many options the test of line 134 takes for the header flag. *)
Definition count_header (opts : list string) : nat :=
  length (List.filter (fun uo => String.eqb "HEADER" (PyStr.strip (PyStr.upper uo))) opts).

(** The line break and indentation between the lines of the statement. *)
Definition line_break : string :=
  String PyStr.newline "                    ".

(** The statement without the white space around it. *)
Definition statement_text (bucket select_query s3_key credentials_block
    unload_options : string) : string :=
  "UNLOAD ($$" +:+ select_query +:+ "$$)" +:+ line_break
  +:+ "TO 's3://" +:+ bucket +:+ "/" +:+ s3_key +:+ "'" +:+ line_break
  +:+ "credentials" +:+ line_break
  +:+ "'" +:+ credentials_block +:+ "'" +:+ line_break
  +:+ unload_options +:+ ";".

(** ** Concrete inputs *)

Module Sample.

(** Arguments with a table and no query; the other samples vary it. *)
Definition table_args : init_args unit :=
  {| arg_s3_bucket := "bucket";
     arg_s3_key := "exports";
     arg_schema := Some "public";
     arg_table := Some "orders";
     arg_select_query := None;
     arg_redshift_conn_id := "redshift_default";
     arg_aws_conn_id := Some "aws_default";
     arg_verify := VerifyNone;
     arg_unload_options := None;
     arg_autocommit := false;
     arg_include_header := false;
     arg_parameters := tt;
     arg_table_as_file_name := true;
     arg_redshift_data_api_kwargs := None |}.

Definition set_source (schema table : option string)
    (a : init_args unit) : init_args unit :=
  {| arg_s3_bucket := arg_s3_bucket a;
     arg_s3_key := arg_s3_key a;
     arg_schema := schema;
     arg_table := table;
     arg_select_query := arg_select_query a;
     arg_redshift_conn_id := arg_redshift_conn_id a;
     arg_aws_conn_id := arg_aws_conn_id a;
     arg_verify := arg_verify a;
     arg_unload_options := arg_unload_options a;
     arg_autocommit := arg_autocommit a;
     arg_include_header := arg_include_header a;
     arg_parameters := arg_parameters a;
     arg_table_as_file_name := arg_table_as_file_name a;
     arg_redshift_data_api_kwargs := arg_redshift_data_api_kwargs a |}.

Definition set_header_options (opts : option (list string))
    (a : init_args unit) : init_args unit :=
  {| arg_s3_bucket := arg_s3_bucket a;
     arg_s3_key := arg_s3_key a;
     arg_schema := arg_schema a;
     arg_table := arg_table a;
     arg_select_query := arg_select_query a;
     arg_redshift_conn_id := arg_redshift_conn_id a;
     arg_aws_conn_id := arg_aws_conn_id a;
     arg_verify := arg_verify a;
     arg_unload_options := opts;
     arg_autocommit := arg_autocommit a;
     arg_include_header := true;
     arg_parameters := arg_parameters a;
     arg_table_as_file_name := arg_table_as_file_name a;
     arg_redshift_data_api_kwargs := arg_redshift_data_api_kwargs a |}.

Definition set_kwargs (d : option (gmap string unit))
    (a : init_args unit) : init_args unit :=
  {| arg_s3_bucket := arg_s3_bucket a;
     arg_s3_key := arg_s3_key a;
     arg_schema := arg_schema a;
     arg_table := arg_table a;
     arg_select_query := arg_select_query a;
     arg_redshift_conn_id := arg_redshift_conn_id a;
     arg_aws_conn_id := arg_aws_conn_id a;
     arg_verify := arg_verify a;
     arg_unload_options := arg_unload_options a;
     arg_autocommit := arg_autocommit a;
     arg_include_header := arg_include_header a;
     arg_parameters := arg_parameters a;
     arg_table_as_file_name := arg_table_as_file_name a;
     arg_redshift_data_api_kwargs := d |}.

(** A query and a table at once. *)
Definition both_args : init_args unit :=
  with_select_query (Some "SELECT 1") table_args.

(** Neither a query nor a table. *)
Definition no_source_args : init_args unit :=
  set_source None None table_args.

(** The escaped query of the specification's scenario. *)
Definition obrien : string :=
  "SELECT * FROM t WHERE name = ''O''Brien''".

(** The operator built from [table_args]. *)
Definition table_operator : operator unit :=
  {| s3_bucket := "bucket";
     s3_key := "exports/orders_";
     schema := Some "public";
     table := Some "orders";
     redshift_conn_id := "redshift_default";
     aws_conn_id := Some "aws_default";
     verify := VerifyNone;
     unload_options := [];
     autocommit := false;
     include_header := false;
     parameters := tt;
     table_as_file_name := true;
     redshift_data_api_kwargs := ∅;
     select_query := "SELECT * FROM public.orders" |}.

Definition role_arn : string := "arn:aws:iam::123:role/x".

(** Collaborators whose storage connection carries a role ARN; fetching
    keys fails, so a run that succeeds cannot have fetched them. *)
Definition role_env : collaborators unit :=
  {| get_connection := fun _ =>
       inr (Connection {[ "role_arn" := ExtraStr role_arn ]});
     get_credentials := fun _ _ => inl (HookError "no credentials");
     build_credentials_block := fun _ => "";
     execute_query := fun _ _ _ _ => inr tt;
     run := fun _ _ _ _ => inr tt |}.

(** Collaborators whose storage connection has no role ARN and whose
    credential provider answers with a key pair. *)
Definition keys_env : collaborators unit :=
  {| get_connection := fun _ => inr (Connection ∅);
     get_credentials := fun _ _ =>
       inr (ReadOnlyCredentials "AKIA" "secret" None);
     build_credentials_block := fun c =>
       "aws_access_key_id=" +:+ access_key c
       +:+ ";aws_secret_access_key=" +:+ secret_key c;
     execute_query := fun _ _ _ _ => inr tt;
     run := fun _ _ _ _ => inr tt |}.

(** [table_operator] with one Data API argument. *)
Definition data_api_operator : operator unit :=
  {| s3_bucket := "bucket";
     s3_key := "exports/orders_";
     schema := Some "public";
     table := Some "orders";
     redshift_conn_id := "redshift_default";
     aws_conn_id := Some "aws_default";
     verify := VerifyNone;
     unload_options := [];
     autocommit := false;
     include_header := false;
     parameters := tt;
     table_as_file_name := true;
     redshift_data_api_kwargs := {[ "database" := tt ]};
     select_query := "SELECT * FROM public.orders" |}.

End Sample.

(** ** Vocabulary for further properties *)

(** [s] contains two adjacent single quotes. *)
Fixpoint has_quote_pair (s : string) : bool :=
  match s with
  | String c1 ((String c2 _) as rest) =>
      (Ascii.eqb c1 PyStr.squote && Ascii.eqb c2 PyStr.squote)
      || has_quote_pair rest
  | _ => false
  end.

(** [s] contains a single quote. *)
Fixpoint has_quote (s : string) : bool :=
  match s with
  | EmptyString => false
  | String c rest => Ascii.eqb c PyStr.squote || has_quote rest
  end.

(** [s] consists of white space only. *)
Fixpoint all_space (s : string) : bool :=
  match s with
  | EmptyString => true
  | String c rest => PyStr.is_space c && all_space rest
  end.

(** A match found in a line, seen from the text that continues with a
    line feed and [b]. *)
Definition behind_line (b : string) (r : option (string * string))
  : option (string * string) :=
  match r with
  | Some (inner, post) => Some (inner, post +:+ String PyStr.newline b)
  | None => None
  end.

Section MoreVocabulary.

Context {pyobj : Type}.

(** The arguments [a] with another [unload_options]. *)
Definition with_unload_options (opts : option (list string))
    (a : init_args pyobj) : init_args pyobj :=
  {| arg_s3_bucket := arg_s3_bucket a;
     arg_s3_key := arg_s3_key a;
     arg_schema := arg_schema a;
     arg_table := arg_table a;
     arg_select_query := arg_select_query a;
     arg_redshift_conn_id := arg_redshift_conn_id a;
     arg_aws_conn_id := arg_aws_conn_id a;
     arg_verify := arg_verify a;
     arg_unload_options := opts;
     arg_autocommit := arg_autocommit a;
     arg_include_header := arg_include_header a;
     arg_parameters := arg_parameters a;
     arg_table_as_file_name := arg_table_as_file_name a;
     arg_redshift_data_api_kwargs := arg_redshift_data_api_kwargs a |}.

(** The arguments [a] with other Data API arguments. *)
Definition with_data_api_kwargs (d : option (gmap string pyobj))
    (a : init_args pyobj) : init_args pyobj :=
  {| arg_s3_bucket := arg_s3_bucket a;
     arg_s3_key := arg_s3_key a;
     arg_schema := arg_schema a;
     arg_table := arg_table a;
     arg_select_query := arg_select_query a;
     arg_redshift_conn_id := arg_redshift_conn_id a;
     arg_aws_conn_id := arg_aws_conn_id a;
     arg_verify := arg_verify a;
     arg_unload_options := arg_unload_options a;
     arg_autocommit := arg_autocommit a;
     arg_include_header := arg_include_header a;
     arg_parameters := arg_parameters a;
     arg_table_as_file_name := arg_table_as_file_name a;
     arg_redshift_data_api_kwargs := d |}.

(** Calls of [S3Hook.get_connection]. *)
Definition is_get_connection (ev : event pyobj) : bool :=
  match ev with
  | GetConnection _ => true
  | _ => false
  end.

(** Calls of [RedshiftDataHook.execute_query]. *)
Definition is_execute_query (ev : event pyobj) : bool :=
  match ev with
  | ExecuteQuery _ _ _ _ => true
  | _ => false
  end.

(** The log line written after the hook has returned. *)
Definition is_completion_log (ev : event pyobj) : bool :=
  match ev with
  | LogInfo msg => String.eqb msg "UNLOAD command complete..."
  | _ => false
  end.

(** Any log line. *)
Definition is_log (ev : event pyobj) : bool :=
  match ev with
  | LogInfo _ => true
  | _ => false
  end.

(** The role ARN [execute] finds for the storage connection: the entry of
    the fetched connection's extra when it is truthy. *)
Definition truthy_role_arn (conn : connection) : option extra_value :=
  match extra_dejson conn !! "role_arn" with
  | Some v => if extra_truthy v then Some v else None
  | None => None
  end.

End MoreVocabulary.

(** ** Texts with at most one escaped literal on a line *)



(** ** The number of rewritten occurrences *)

(** The scan of [Re.sub_fuel], counting the matches it replaces: the number
    [re.subn] reports next to the new text. *)
Fixpoint count_fuel (fuel : nat) (s : string) : nat :=
  match fuel with
  | O => O
  | S fuel' =>
      match Re.match_here s with
      | Some (_, post) => S (count_fuel fuel' post)
      | None =>
          match s with
          | EmptyString => O
          | String _ rest => count_fuel fuel' rest
          end
      end
  end.

Definition count_rewritten (s : string) : nat :=
  count_fuel (String.length s) s.

(** * Properties *)

(** ** Facts about strings *)

#[local] Arguments String.append !_ _ / : simpl nomatch.

Module StrFacts.

Lemma append_assoc (a b c : string) : (a +:+ b) +:+ c = a +:+ (b +:+ c).
Proof. induction a as [|x a IH]; simpl; [reflexivity | now rewrite IH]. Qed.

Lemma length_append (a b : string) :
  String.length (a +:+ b) = String.length a + String.length b.
Proof. induction a as [|x a IH]; simpl; [reflexivity | now rewrite IH]. Qed.

Lemma append_inj (a a' b b' : string) :
  String.length a = String.length a' ->
  a +:+ b = a' +:+ b' -> a = a' /\ b = b'.
Proof.
  revert a'. induction a as [|x a IH]; intros [|x' a'] Hlen Heq;
    simpl in *; try discriminate.
  - split; [reflexivity | assumption].
  - injection Heq as -> Heq. injection Hlen as Hlen.
    destruct (IH _ Hlen Heq) as [-> ->]. split; reflexivity.
Qed.

Lemma length_zero (s : string) : String.length s = 0 -> s = "".
Proof. destruct s; [reflexivity | discriminate]. Qed.

Lemma truthy_true (s : string) : PyStr.truthy s = true <-> s <> "".
Proof. destruct s; simpl; split; congruence. Qed.

End StrFacts.

(** ** The matcher against the rule *)

Module ReFacts.
Import PyStr Re Rule StrFacts.

Lemma dot_star_sound (s x p : string) :
  dot_star_quotes s = Some (x, p) ->
  s = x +:+ two_quotes +:+ p /\ no_newline x = true.
Proof.
  revert x p. induction s as [|c rest IH]; intros x p H; simpl in H.
  - discriminate.
  - destruct (Ascii.eqb c newline) eqn:Hnl.
    + destruct rest as [|c' post]; [discriminate|].
      destruct (Ascii.eqb c squote && Ascii.eqb c' squote) eqn:Hq;
        [|discriminate].
      injection H as <- <-.
      apply andb_prop in Hq as [Hc Hc'].
      apply Ascii.eqb_eq in Hc as ->. apply Ascii.eqb_eq in Hc' as ->.
      split; reflexivity.
    + destruct (dot_star_quotes rest) as [[inner post]|] eqn:Hrec.
      * injection H as <- <-.
        destruct (IH _ _ eq_refl) as [-> Hnn].
        split; [reflexivity|]. simpl. now rewrite Hnl, Hnn.
      * destruct rest as [|c' post]; [discriminate|].
        destruct (Ascii.eqb c squote && Ascii.eqb c' squote) eqn:Hq;
          [|discriminate].
        injection H as <- <-.
        apply andb_prop in Hq as [Hc Hc'].
        apply Ascii.eqb_eq in Hc as ->. apply Ascii.eqb_eq in Hc' as ->.
        split; reflexivity.
  Qed.

Lemma dot_star_cons (c : ascii) (rest : string) :
  dot_star_quotes (String c rest) =
  match (if Ascii.eqb c newline then None else dot_star_quotes rest) with
  | Some (inner, post) => Some (String c inner, post)
  | None =>
      match rest with
      | String c' post =>
          if Ascii.eqb c squote && Ascii.eqb c' squote
          then Some (EmptyString, post) else None
      | EmptyString => None
      end
  end.
Proof. reflexivity. Qed.

Lemma dot_star_complete (x p : string) :
  no_newline x = true ->
  exists x' p', dot_star_quotes (x +:+ two_quotes +:+ p) = Some (x', p')
                /\ String.length x <= String.length x'.
Proof.
  induction x as [|c x IH]; intros Hnn.
  - change ("" +:+ two_quotes +:+ p)
      with (String squote (String squote p)).
    rewrite dot_star_cons.
    replace (Ascii.eqb squote newline) with false by reflexivity.
    destruct (dot_star_quotes (String squote p)) as [[inner post]|].
    + eexists _, _. split; [reflexivity | simpl; lia].
    + rewrite Ascii.eqb_refl. eexists _, _. split; [reflexivity | simpl; lia].
  - simpl in Hnn. apply andb_prop in Hnn as [Hc Hnn].
    apply negb_true_iff in Hc.
    destruct (IH Hnn) as (x' & p' & Hrec & Hlen).
    change (String c x +:+ two_quotes +:+ p)
      with (String c (x +:+ two_quotes +:+ p)).
    rewrite dot_star_cons, Hc, Hrec.
    eexists _, _. split; [reflexivity | simpl; lia].
Qed.

Lemma matches_here_shape (s inner post : string) :
  matches_here s inner post ->
  exists c i, inner = String c i /\ Ascii.eqb c newline = false
    /\ no_newline i = true
    /\ s = String squote (String squote (String c (i +:+ two_quotes +:+ post))).
Proof.
  intros (Hs & Hne & Hnn). destruct inner as [|c i]; [congruence|].
  simpl in Hnn. apply andb_prop in Hnn as [Hc Hnn].
  apply negb_true_iff in Hc. exists c, i. repeat split; assumption.
Qed.

Lemma match_here_complete (s inner post : string) :
  matches_here s inner post ->
  exists inner' post', match_here s = Some (inner', post')
    /\ String.length inner <= String.length inner'.
Proof.
  intros H. destruct (matches_here_shape _ _ _ H)
    as (c & i & -> & Hc & Hnn & ->).
  destruct (dot_star_complete i post Hnn) as (x' & p' & Hrec & Hlen).
  cbn [match_here dot_plus_quotes]. rewrite !Ascii.eqb_refl.
  cbn [andb]. rewrite Hc, Hrec.
  eexists _, _. split; [reflexivity | simpl; lia].
Qed.

Lemma match_here_matches (s inner post : string) :
  match_here s = Some (inner, post) -> matches_here s inner post.
Proof.
  intros H. destruct s as [|c1 [|c2 rest]]; try discriminate.
  cbn [match_here] in H.
  destruct (Ascii.eqb c1 squote && Ascii.eqb c2 squote) eqn:Hq;
    [|discriminate].
  apply andb_prop in Hq as [H1 H2].
  apply Ascii.eqb_eq in H1 as ->. apply Ascii.eqb_eq in H2 as ->.
  destruct rest as [|c rest]; [discriminate|]. cbn [dot_plus_quotes] in H.
  destruct (Ascii.eqb c newline) eqn:Hc; [discriminate|].
  destruct (dot_star_quotes rest) as [[i p]|] eqn:Hrec; [|discriminate].
  injection H as <- <-.
  destruct (dot_star_sound _ _ _ Hrec) as [-> Hnn].
  repeat split; [discriminate|]. simpl. now rewrite Hc, Hnn.
Qed.

Lemma match_here_greedy (s inner post : string) :
  match_here s = Some (inner, post) -> greedy_match_here s inner post.
Proof.
  intros H. split; [now apply match_here_matches|].
  intros inner' post' H'.
  destruct (match_here_complete _ _ _ H') as (i & p & Hm & Hlen).
  rewrite H in Hm. now injection Hm as <- <-.
Qed.

Lemma match_here_none (s : string) :
  match_here s = None -> forall inner post, ~ matches_here s inner post.
Proof.
  intros H inner post H'.
  destruct (match_here_complete _ _ _ H') as (i & p & Hm & _). congruence.
Qed.

Lemma greedy_unique (s i1 p1 i2 p2 : string) :
  greedy_match_here s i1 p1 -> greedy_match_here s i2 p2 ->
  i1 = i2 /\ p1 = p2.
Proof.
  intros [H1 M1] [H2 M2].
  assert (Hlen : String.length i1 = String.length i2).
  { apply Nat.le_antisymm; [eapply M2 | eapply M1]; eassumption. }
  destruct H1 as (E1 & _ & _), H2 as (E2 & _ & _). rewrite E1 in E2.
  apply append_inj in E2 as [_ E2]; [|reflexivity].
  apply append_inj in E2 as [-> E2]; [|assumption].
  apply append_inj in E2 as [_ ->]; [|reflexivity]. split; reflexivity.
Qed.

Lemma matches_here_shorter (s inner post : string) :
  matches_here s inner post -> String.length post < String.length s.
Proof.
  intros (-> & _ & _). rewrite !length_append. simpl. lia.
Qed.

Lemma sub_fuel_rewrites (n : nat) :
  forall s, String.length s <= n -> rewrites_to s (sub_fuel n s).
Proof.
  induction n as [|n IH]; intros s Hlen.
  - rewrite (length_zero s) by lia. constructor.
  - cbn [sub_fuel]. destruct (match_here s) as [[inner post]|] eqn:Hm.
    + apply (rewrites_match s inner post); [now apply match_here_greedy|].
      apply IH.
      pose proof (matches_here_shorter _ _ _ (match_here_matches _ _ _ Hm)).
      lia.
    + destruct s as [|c rest]; [constructor|].
      apply rewrites_skip; [now apply match_here_none|].
      apply IH. simpl in Hlen. lia.
Qed.

Lemma sub_quotes_rewrites (s : string) : rewrites_to s (sub_quotes s).
Proof. apply sub_fuel_rewrites. reflexivity. Qed.

Lemma rewrites_to_functional (s o1 o2 : string) :
  rewrites_to s o1 -> rewrites_to s o2 -> o1 = o2.
Proof.
  intros H1. revert o2.
  induction H1 as [|s inner post out Hg _ IH|c rest out Hno _ IH];
    intros o2 H2;
    inversion H2 as [|s' i' p' o' Hg' Hr'|c' r' o' Hno' Hr']; subst.
  - reflexivity.
  - destruct Hg' as [(E & _) _]. discriminate.
  - destruct Hg as [(E & _) _]. discriminate.
  - destruct (greedy_unique _ _ _ _ _ Hg Hg') as [<- <-].
    now rewrite (IH _ Hr').
  - destruct Hg as [Hg _]. now apply Hno' in Hg.
  - destruct Hg' as [Hm _]. now apply Hno in Hm.
  - now rewrite (IH _ Hr').
Qed.

Lemma rewrites_to_sub_quotes (s out : string) :
  rewrites_to s out <-> out = sub_quotes s.
Proof.
  split.
  - intros H. apply (rewrites_to_functional s); [assumption|].
    apply sub_quotes_rewrites.
  - intros ->. apply sub_quotes_rewrites.
Qed.

End ReFacts.

(** ** Where the greedy and the non-greedy matcher agree *)

Module ReAgree.
Import PyStr Re Rule StrFacts ReFacts.












End ReAgree.

(** ** Construction *)

Section InitFacts.

Context {pyobj : Type}.
Implicit Types (a : init_args pyobj) (self : operator pyobj).

Lemma init_select_query_none a :
  at_least_one_source a = false ->
  init_select_query a = inl (ValueError missing_source_msg).
Proof.
  unfold at_least_one_source, query_resolvable, table_resolvable,
    init_select_query.
  intros H. apply orb_false_iff in H as [Hq Ht]. rewrite Ht.
  destruct (arg_select_query a) as [q|]; [|reflexivity].
  simpl in Hq. now rewrite Hq.
Qed.

Lemma init_select_query_given a q :
  arg_select_query a = Some q -> q <> "" -> init_select_query a = inr q.
Proof.
  intros Hq Hne. unfold init_select_query. rewrite Hq.
  apply StrFacts.truthy_true in Hne. now rewrite Hne.
Qed.

Lemma init_select_query_table a :
  query_resolvable a = false -> table_resolvable a = true ->
  init_select_query a =
    inr ("SELECT * FROM " +:+ format_opt (arg_schema a) +:+ "."
           +:+ format_opt (arg_table a)).
Proof.
  unfold query_resolvable, table_resolvable, init_select_query.
  intros Hq ->. destruct (arg_select_query a) as [q|]; [|reflexivity].
  simpl in Hq. now rewrite Hq.
Qed.

Lemma init_select_query_some a q :
  init_select_query a = inr q -> at_least_one_source a = true.
Proof.
  intros H. destruct (at_least_one_source a) eqn:E; [reflexivity|].
  rewrite (init_select_query_none a E) in H. discriminate.
Qed.

(** What a successful construction went through. *)
Lemma init_inr a self :
  init a = inr self ->
  exists q,
    init_select_query a = inr q
    /\ init_check_kwargs (default ∅ (arg_redshift_data_api_kwargs a)) = inr tt
    /\ select_query self = q
    /\ s3_bucket self = arg_s3_bucket a
    /\ s3_key self =
         (if PyStr.truthy_opt (arg_table a) && arg_table_as_file_name a
          then arg_s3_key a +:+ "/" +:+ format_opt (arg_table a) +:+ "_"
          else arg_s3_key a)
    /\ unload_options self =
         init_unload_options (arg_include_header a)
           (default [] (arg_unload_options a)).
Proof.
  unfold init. intros H.
  destruct (init_select_query a) as [e|q]; [discriminate|].
  destruct (init_check_kwargs _) as [e|[]]; [discriminate|].
  injection H as <-. exists q. repeat split; reflexivity.
Qed.

(** Construction succeeds once both checks pass. *)
Lemma init_succeeds a q :
  init_select_query a = inr q ->
  init_check_kwargs (default ∅ (arg_redshift_data_api_kwargs a)) = inr tt ->
  exists self, init a = inr self /\ select_query self = q.
Proof.
  intros Hq Hk. unfold init. rewrite Hq, Hk.
  eexists. split; reflexivity.
Qed.

Lemma init_fails_without_source a :
  at_least_one_source a = false ->
  init a = inl (ValueError missing_source_msg).
Proof.
  intros H. unfold init. now rewrite (init_select_query_none a H).
Qed.

Lemma dict_has_truthy (k : string) (d : gmap string pyobj) :
  dict_has k d = true -> dict_truthy d = true.
Proof.
  unfold dict_has, dict_truthy. intros H.
  apply bool_decide_eq_true in H as [v Hv].
  apply negb_true_iff, Nat.eqb_neq. intros Hsz.
  apply map_size_empty_iff in Hsz. subst d.
  rewrite lookup_empty in Hv. discriminate.
Qed.

Lemma init_check_kwargs_forbidden (d : gmap string pyobj) :
  dict_has "sql" d || dict_has "parameters" d = true ->
  init_check_kwargs d =
    inl (AirflowException (forbidden_kwarg_msg (offending_key d))).
Proof.
  intros H. unfold init_check_kwargs, offending_key.
  assert (Ht : dict_truthy d = true).
  { apply orb_true_iff in H as [H|H]; eapply dict_has_truthy; eassumption. }
  rewrite Ht. cbn [check_kwargs].
  destruct (dict_has "sql" d); [reflexivity|].
  simpl in H. now rewrite H.
Qed.

End InitFacts.

Section HeaderFacts.

Lemma list_has_count (opts : list string) :
  list_has "HEADER" (normalized_options opts) = negb (Nat.eqb (count_header opts) 0).
Proof.
  unfold list_has, normalized_options, count_header.
  induction opts as [|uo opts IH]; [reflexivity|].
  cbn [map existsb List.filter].
  destruct (String.eqb "HEADER" (PyStr.strip (PyStr.upper uo)));
    [reflexivity | exact IH].
Qed.

Lemma count_header_app (l1 l2 : list string) :
  count_header (l1 ++ l2) = count_header l1 + count_header l2.
Proof.
  unfold count_header. now rewrite List.filter_app, length_app.
Qed.

Lemma count_header_init (flag : bool) (opts : list string) :
  flag = true ->
  count_header (init_unload_options flag opts) = Nat.max 1 (count_header opts).
Proof.
  intros ->. unfold init_unload_options. rewrite list_has_count.
  cbn [andb]. rewrite negb_involutive.
  destruct (Nat.eqb_spec (count_header opts) 0) as [E|E].
  - rewrite count_header_app, E. reflexivity.
  - lia.
Qed.

End HeaderFacts.

(** ** The statement text *)

Module StatementFacts.
Import PyStr StrFacts.

Lemma rstrip_keeps (s ws : string) (c : ascii) :
  is_space c = false -> rstrip ws = "" ->
  rstrip (s +:+ String c ws) = s +:+ String c "".
Proof.
  intros Hc Hws. induction s as [|x s IH].
  - cbn [String.append rstrip]. now rewrite Hws, Hc.
  - change (String x s +:+ String c ws) with (String x (s +:+ String c ws)).
    cbn [rstrip]. rewrite IH. now destruct s.
Qed.

Lemma template_parts (bucket q key cb opts : string) :
  unload_template bucket q key cb opts =
  String newline
    ("                    "
     +:+ statement_text bucket q key cb opts
     +:+ String newline "        ").
Proof.
  unfold unload_template, statement_text, line_break.
  rewrite !append_assoc. reflexivity.
Qed.

Lemma statement_text_end (bucket q key cb opts : string) :
  statement_text bucket q key cb opts =
  ("UNLOAD ($$" +:+ q +:+ "$$)" +:+ line_break
   +:+ "TO 's3://" +:+ bucket +:+ "/" +:+ key +:+ "'" +:+ line_break
   +:+ "credentials" +:+ line_break
   +:+ "'" +:+ cb +:+ "'" +:+ line_break +:+ opts) +:+ ";".
Proof. unfold statement_text. rewrite !append_assoc. reflexivity. Qed.

Lemma strip_template (bucket q key cb opts : string) :
  strip (unload_template bucket q key cb opts) =
  statement_text bucket q key cb opts.
Proof.
  rewrite template_parts. unfold strip.
  assert (Hl :
    lstrip (String newline
              ("                    "
               +:+ statement_text bucket q key cb opts
               +:+ String newline "        "))
    = statement_text bucket q key cb opts +:+ String newline "        ")
    by reflexivity.
  rewrite Hl, statement_text_end, (append_assoc _ ";" _).
  change (";" +:+ String newline "        ")
    with (String ";"%char (String newline "        ")).
  now rewrite rstrip_keeps by reflexivity.
Qed.

Lemma statement_text_prefix (bucket q key cb opts : string) :
  String.prefix "UNLOAD ($$" (statement_text bucket q key cb opts) = true.
Proof.
  unfold statement_text. set (r := q +:+ _).
  change (String.prefix "" r = true). now destruct r.
Qed.

End StatementFacts.

(** ** Execution *)

Section ExecuteFacts.

Context {pyobj : Type}.
Implicit Types (env : collaborators pyobj) (self : operator pyobj).

Lemma execute_without_credentials env self tr e :
  resolve_credentials env self = (tr, inl e) ->
  execute env self = (tr, inl e).
Proof. unfold execute, bind. now intros ->. Qed.

Lemma execute_with_credentials env self tr cb :
  resolve_credentials env self = (tr, inr cb) ->
  execute env self =
    match outcome (submission env self cb) with
    | inr _ =>
        (tr ++ LogInfo "Executing UNLOAD command..."
            :: trace (submission env self cb)
            ++ [LogInfo "UNLOAD command complete..."], inr tt)
    | inl e =>
        (tr ++ LogInfo "Executing UNLOAD command..."
            :: trace (submission env self cb), inl e)
    end.
Proof.
  unfold execute, submission. intros ->.
  destruct (submit env self (choose_hook self) (unload_query self cb))
    as [tr' [e|[]]] eqn:Hs; unfold bind, log_info, call, trace, outcome;
    cbn [fst snd]; rewrite Hs; reflexivity.
Qed.

Lemma submission_data_api env self cb :
  dict_truthy (redshift_data_api_kwargs self) = true ->
  submission env self cb =
    call (ExecuteQuery (redshift_conn_id self) (unload_query self cb)
            (parameters self) (redshift_data_api_kwargs self))
      (execute_query env (redshift_conn_id self) (unload_query self cb)
         (parameters self) (redshift_data_api_kwargs self)).
Proof. unfold submission, choose_hook. now intros ->. Qed.

Lemma submission_sql env self cb :
  dict_truthy (redshift_data_api_kwargs self) = false ->
  submission env self cb =
    call (Run (redshift_conn_id self) (unload_query self cb)
            (autocommit self) (parameters self))
      (run env (redshift_conn_id self) (unload_query self cb)
         (autocommit self) (parameters self)).
Proof. unfold submission, choose_hook. now intros ->. Qed.

(** Resolving the credentials never touches a Redshift hook. *)
Lemma resolve_credentials_no_submission env self :
  List.filter is_submission (trace (resolve_credentials env self)) = [].
Proof.
  unfold resolve_credentials.
  destruct (PyStr.truthy_opt (aws_conn_id self)).
  - destruct (get_connection env _) as [e|c]; [reflexivity|].
    cbn [call bind ret].
    destruct (extra_dejson c !! "role_arn") as [v|];
      [destruct (extra_truthy v)|]; try reflexivity;
      now destruct (get_credentials env _ _).
  - cbn [bind ret]. now destruct (get_credentials env _ _).
Qed.

(** With a truthy role ARN the clause comes from the connection alone. *)
Lemma resolve_credentials_role env self conn_id conn v :
  aws_conn_id self = Some conn_id -> conn_id <> "" ->
  get_connection env conn_id = inr conn ->
  extra_dejson conn !! "role_arn" = Some v -> extra_truthy v = true ->
  resolve_credentials env self =
    ([GetConnection conn_id], inr ("aws_iam_role=" +:+ extra_format v)).
Proof.
  intros Hid Hne Hconn Hv Ht. unfold resolve_credentials.
  rewrite Hid. cbn [PyStr.truthy_opt format_opt].
  apply StrFacts.truthy_true in Hne. rewrite Hne, Hconn.
  cbn [call bind ret]. now rewrite Hv, Ht.
Qed.

End ExecuteFacts.

Example execute_role_arn_sql_hook :
  execute Sample.role_env Sample.table_operator =
    ([GetConnection "aws_default";
      LogInfo "Executing UNLOAD command...";
      Run "redshift_default"
        (unload_query Sample.table_operator
           "aws_iam_role=arn:aws:iam::123:role/x") false tt;
      LogInfo "UNLOAD command complete..."], inr tt).
Proof. reflexivity. Qed.

Example execute_keys_data_api_hook :
  execute Sample.keys_env Sample.data_api_operator =
    ([GetConnection "aws_default";
      GetCredentials (Some "aws_default") VerifyNone;
      LogInfo "Executing UNLOAD command...";
      ExecuteQuery "redshift_default"
        (unload_query Sample.data_api_operator
           "aws_access_key_id=AKIA;aws_secret_access_key=secret") tt
        {[ "database" := tt ]};
      LogInfo "UNLOAD command complete..."], inr tt).
Proof. reflexivity. Qed.

Example execute_credentials_failure :
  execute Sample.role_env
    (Operator "bucket" "k" None None "redshift_default" None VerifyNone []
       false false tt true ∅ "SELECT 1") =
    ([GetCredentials None VerifyNone], inl (HookError "no credentials")).
Proof. reflexivity. Qed.

Example strip_header_option :
  normalized_options ["csv"; "  Header "] = ["CSV"; "HEADER"].
Proof. reflexivity. Qed.

(** ** Joining the options *)

Module JoinFacts.
Import PyStr StrFacts.

Lemma append_empty (s : string) : s +:+ "" = s.
Proof. induction s as [|c s IH]; [reflexivity|]. simpl. now rewrite IH. Qed.

(** [sep.join(parts)], part by part. *)
Lemma join_fold (sep : string) (parts : list string) :
  join sep parts =
  match parts with
  | [] => ""
  | first :: others =>
      first +:+ fold_right (fun p text => sep +:+ p +:+ text) "" others
  end.
Proof.
  destruct parts as [|first others]; [reflexivity|].
  revert first. induction others as [|p others IH]; intros first.
  - cbn [join fold_right]. now rewrite append_empty.
  - change (join sep (first :: p :: others))
      with (first +:+ sep +:+ join sep (p :: others)).
    rewrite (IH p). reflexivity.
Qed.

Lemma join_three (sep a b c : string) :
  join sep [a; b; c] = a +:+ sep +:+ b +:+ sep +:+ c.
Proof. reflexivity. Qed.

End JoinFacts.

Example join_unload_options :
  PyStr.join options_separator ["CSV"; "PARALLEL OFF"; "HEADER"]
  = "CSV" +:+ options_separator +:+ "PARALLEL OFF" +:+ options_separator
    +:+ "HEADER".
Proof. reflexivity. Qed.

Example join_unload_options_edges :
  PyStr.join options_separator [] = ""
  /\ PyStr.join options_separator ["CSV"] = "CSV"
  /\ String.length (PyStr.join options_separator ["CSV"; "GZIP"]) = 11.
Proof. repeat split. Qed.

(** * The claims *)




(** C2, amended.  Construction succeeds only when at least one of the
    select query or the schema and table pair is resolvable, and fails with
    the configuration error when neither is.  A configuration that supplies
    both is accepted when the Data API arguments pass their check, and its
    select query is the one used. *)
Theorem init_needs_some_source :
  forall (pyobj : Type) (a : init_args pyobj),
    (forall self, init a = inr self -> at_least_one_source a = true)
    /\ (at_least_one_source a = false ->
        init a = inl (ValueError missing_source_msg))
    /\ (query_resolvable a = true -> table_resolvable a = true ->
        init_check_kwargs (default ∅ (arg_redshift_data_api_kwargs a)) = inr tt ->
        exists self, init a = inr self
                     /\ Some (select_query self) = arg_select_query a).
Proof.
  intros pyobj a. split; [|split].
  - intros self H. destruct (init_inr a self H) as (q & Hq & _).
    now apply init_select_query_some in Hq.
  - apply init_fails_without_source.
  - intros Hq _ Hk. unfold query_resolvable in Hq.
    destruct (arg_select_query a) as [q|] eqn:E; [|discriminate].
    simpl in Hq. apply StrFacts.truthy_true in Hq.
    destruct (init_succeeds a q (init_select_query_given a q E Hq) Hk)
      as (self & Hi & Hs).
    exists self. split; [assumption | now rewrite Hs].
Qed.

Lemma init_needs_some_source_witness :
  at_least_one_source Sample.both_args = true
  /\ init Sample.no_source_args = inl (ValueError missing_source_msg)
  /\ exists self, init Sample.both_args = inr self
                  /\ Some (select_query self) = Some "SELECT 1".
Proof.
  destruct (init_needs_some_source unit Sample.both_args) as (H1 & _ & H3).
  destruct (init_needs_some_source unit Sample.no_source_args) as (_ & H2 & _).
  split; [|split].
  - eapply H1. reflexivity.
  - apply H2. reflexivity.
  - apply H3; reflexivity.
Defined.

(** C2 as stated fails: a configuration with a select query and a schema
    and table pair is constructed, although not exactly one of the two is
    resolvable. *)
Lemma init_accepts_both_sources :
  exactly_one_source Sample.both_args = false
  /\ exists self, init Sample.both_args = inr self.
Proof. split; [reflexivity|]. eexists. reflexivity. Qed.

(** C3, amended.  With include_header set, a constructed operator's option
    list is the given list when some option equals HEADER after upper-casing
    and stripping surrounding white space, and the given list followed by
    the literal HEADER otherwise.  The number of such options afterwards is
    the larger of one and their number before, so at least one is present
    and options already given are neither removed nor reordered:
    ["header"] stays ["header"] and [] becomes ["HEADER"]. *)
Theorem include_header_appends_flag :
  forall (pyobj : Type) (a : init_args pyobj) (self : operator pyobj),
    arg_include_header a = true ->
    init a = inr self ->
    let given := default [] (arg_unload_options a) in
    unload_options self =
      (if list_has "HEADER" (normalized_options given)
       then given else given ++ ["HEADER"])
    /\ count_header (unload_options self) = Nat.max 1 (count_header given)
    /\ (given = ["header"] -> unload_options self = ["header"])
    /\ (given = [] -> unload_options self = ["HEADER"]).
Proof.
  intros pyobj a self Hh Hi given.
  destruct (init_inr a self Hi) as (q & _ & _ & _ & _ & _ & Ho).
  fold given in Ho. rewrite Ho, Hh.
  split; [|split; [|split]].
  - unfold init_unload_options. cbn [andb].
    now destruct (list_has "HEADER" (normalized_options given)).
  - now apply count_header_init.
  - intros ->. reflexivity.
  - intros ->. reflexivity.
Qed.

Lemma include_header_appends_flag_witness :
  (exists self,
     init (Sample.set_header_options (Some ["header"]) Sample.table_args)
       = inr self
     /\ unload_options self = ["header"])
  /\ (exists self,
        init (Sample.set_header_options None Sample.table_args) = inr self
        /\ unload_options self = ["HEADER"]).
Proof.
  split; eexists; (split; [reflexivity|]).
  - apply (include_header_appends_flag unit
             (Sample.set_header_options (Some ["header"]) Sample.table_args));
      reflexivity.
  - apply (include_header_appends_flag unit
             (Sample.set_header_options None Sample.table_args));
      reflexivity.
Defined.

(** C3 as stated fails twice.  Two options that both match HEADER are both
    kept, so the match is not there exactly once; and an option that matches
    only after stripping white space stops HEADER from being appended,
    although no option matches ignoring case alone. *)
Lemma include_header_not_exactly_once :
  (exists self,
     init (Sample.set_header_options (Some ["header"; "HEADER"])
             Sample.table_args) = inr self
     /\ count_header_ignoring_case (unload_options self) = 2)
  /\ (exists self,
        init (Sample.set_header_options (Some [" header "])
                Sample.table_args) = inr self
        /\ count_header_ignoring_case [" header "] = 0
        /\ unload_options self = [" header "]).
Proof.
  split; eexists; (split; [reflexivity|]); repeat split; reflexivity.
Qed.

(** C4.  A configuration that lacks the select query and lacks the schema
    or the table (each not given, or given empty) fails construction with
    the configuration error, so no operator exists that could be
    executed. *)
Theorem init_requires_schema_and_table :
  forall (pyobj : Type) (a : init_args pyobj),
    PyStr.truthy_opt (arg_select_query a) = false ->
    PyStr.truthy_opt (arg_schema a) = false
    \/ PyStr.truthy_opt (arg_table a) = false ->
    init a = inl (ValueError missing_source_msg)
    /\ forall self, init a <> inr self.
Proof.
  intros pyobj a Hq Hst.
  assert (H : init a = inl (ValueError missing_source_msg)).
  { apply init_fails_without_source.
    unfold at_least_one_source, query_resolvable, table_resolvable.
    rewrite Hq. destruct Hst as [-> | ->]; [reflexivity|].
    now rewrite andb_false_r. }
  split; [assumption|]. intros self. rewrite H. discriminate.
Qed.

Lemma init_requires_schema_and_table_witness :
  init (Sample.set_source (Some "public") None Sample.table_args)
  = inl (ValueError missing_source_msg).
Proof.
  apply (init_requires_schema_and_table unit
           (Sample.set_source (Some "public") None Sample.table_args)).
  - reflexivity.
  - right. reflexivity.
Defined.


(** C6.  When the storage connection is fetched and its extra
    configuration has a truthy role_arn entry, the credentials clause is
    aws_iam_role= followed by that entry, the entry itself when it is a
    string, and [execute] never calls [get_credentials]. *)
Theorem role_arn_gives_credentials_clause :
  forall (pyobj : Type) (env : collaborators pyobj) (self : operator pyobj)
         (conn_id : string) (conn : connection) (v : extra_value),
    aws_conn_id self = Some conn_id ->
    conn_id <> "" ->
    get_connection env conn_id = inr conn ->
    extra_dejson conn !! "role_arn" = Some v ->
    extra_truthy v = true ->
    outcome (resolve_credentials env self)
      = inr ("aws_iam_role=" +:+ extra_format v)
    /\ (forall arn, v = ExtraStr arn ->
          outcome (resolve_credentials env self) = inr ("aws_iam_role=" +:+ arn))
    /\ List.filter is_get_credentials (trace (execute env self)) = []
    /\ List.filter is_submission (trace (execute env self))
       = trace (submission env self ("aws_iam_role=" +:+ extra_format v)).
Proof.
  intros pyobj env self conn_id conn v Hid Hne Hconn Hv Ht.
  pose proof (resolve_credentials_role env self conn_id conn v
                Hid Hne Hconn Hv Ht) as Hr.
  rewrite Hr. split; [reflexivity|]. split; [now intros arn ->|].
  rewrite (execute_with_credentials env self _ _ Hr).
  unfold submission, submit.
  destruct (choose_hook self); unfold call, outcome, trace; cbn [fst snd];
    match goal with
    | |- context [match ?ans with inl _ => _ | inr _ => _ end] =>
        destruct ans as [e|[]]
    end; split; reflexivity.
Qed.

Lemma role_arn_gives_credentials_clause_witness :
  outcome (resolve_credentials Sample.role_env Sample.table_operator)
  = inr "aws_iam_role=arn:aws:iam::123:role/x".
Proof.
  apply (role_arn_gives_credentials_clause unit Sample.role_env
           Sample.table_operator "aws_default"
           (Connection {[ "role_arn" := ExtraStr Sample.role_arn ]})
           (ExtraStr Sample.role_arn)); try reflexivity.
  discriminate.
Defined.

(** C7.  After construction the destination key is the key prefix, a
    slash, the table and an underscore when table_as_file_name is set and
    a non-empty table is given, and the key prefix itself otherwise.  The
    statement of every later execution carries that key, trimmed of the
    white space around it.  For the prefix exports and the table orders
    the key is exports/orders_. *)
Theorem s3_key_set_at_construction :
  forall (pyobj : Type) (a : init_args pyobj) (self : operator pyobj),
    init a = inr self ->
    (forall t, arg_table a = Some t -> t <> "" ->
       arg_table_as_file_name a = true ->
       s3_key self = arg_s3_key a +:+ "/" +:+ t +:+ "_")
    /\ (arg_table_as_file_name a = false
        \/ PyStr.truthy_opt (arg_table a) = false ->
        s3_key self = arg_s3_key a)
    /\ (forall credentials_block,
          PyStr.strip (unload_query self credentials_block) =
            statement_text (arg_s3_bucket a) (Re.sub_quotes (select_query self))
              (s3_key self) credentials_block
              (PyStr.join options_separator (unload_options self))).
Proof.
  intros pyobj a self Hi.
  destruct (init_inr a self Hi) as (q & _ & _ & _ & Hb & Hk & _).
  split; [|split].
  - intros t Ht Hne Hf. rewrite Hk, Ht, Hf. cbn [PyStr.truthy_opt format_opt].
    apply StrFacts.truthy_true in Hne. now rewrite Hne.
  - intros [Hf|Ht]; rewrite Hk.
    + now rewrite Hf, andb_false_r.
    + now rewrite Ht.
  - intros cb. rewrite <- Hb. apply StatementFacts.strip_template.
Qed.

Lemma s3_key_set_at_construction_witness :
  init Sample.table_args = inr Sample.table_operator
  /\ s3_key Sample.table_operator = "exports/orders_".
Proof.
  split; [reflexivity|].
  apply (proj1 (s3_key_set_at_construction unit Sample.table_args
                  Sample.table_operator eq_refl) "orders");
    [reflexivity | discriminate | reflexivity].
Defined.

(** C8, amended.  A configuration whose Data API arguments contain the key
    sql or the key parameters is never constructed.  When it names a
    resolvable source the configuration error names the offending key, sql
    before parameters; when it names none, the error is the one about the
    missing source, which is checked first. *)
Theorem init_rejects_forbidden_kwargs :
  forall (pyobj : Type) (a : init_args pyobj) (d : gmap string pyobj),
    arg_redshift_data_api_kwargs a = Some d ->
    dict_has "sql" d || dict_has "parameters" d = true ->
    (forall self, init a <> inr self)
    /\ (at_least_one_source a = true ->
        init a = inl (AirflowException (forbidden_kwarg_msg (offending_key d)))
        /\ dict_has (offending_key d) d = true
        /\ PyStr.contains (offending_key d)
             (forbidden_kwarg_msg (offending_key d)) = true)
    /\ (at_least_one_source a = false ->
        init a = inl (ValueError missing_source_msg)).
Proof.
  intros pyobj a d Hd Hk.
  pose proof (init_check_kwargs_forbidden d Hk) as Hc.
  assert (Hfail : forall self, init a <> inr self).
  { intros self Hi. destruct (init_inr a self Hi) as (q & _ & Hok & _).
    rewrite Hd in Hok. change (init_check_kwargs d = inr tt) in Hok.
    congruence. }
  split; [assumption|]. split.
  - intros Hs. split; [|split].
    + unfold init.
      destruct (init_select_query a) as [e|q] eqn:Hq.
      * destruct (at_least_one_source a) eqn:E; [|discriminate].
        exfalso. clear Hs.
        unfold at_least_one_source, query_resolvable, table_resolvable,
          init_select_query in *.
        destruct (arg_select_query a) as [s|]; cbn [PyStr.truthy_opt] in *.
        -- destruct (PyStr.truthy s); [discriminate|].
           cbn [orb] in E. rewrite E in Hq. discriminate.
        -- cbn [orb] in E. rewrite E in Hq. discriminate.
      * rewrite Hd. change (default ∅ (Some d)) with d. now rewrite Hc.
    + unfold offending_key. destruct (dict_has "sql" d) eqn:E;
        [assumption | exact Hk].
    + unfold offending_key. now destruct (dict_has "sql" d).
  - apply init_fails_without_source.
Qed.

Lemma init_rejects_forbidden_kwargs_witness :
  init (Sample.set_kwargs (Some {[ "parameters" := tt ]}) Sample.table_args)
  = inl (AirflowException
           "Cannot include param 'parameters' in Redshift Data API kwargs").
Proof.
  destruct (init_rejects_forbidden_kwargs unit
              (Sample.set_kwargs (Some {[ "parameters" := tt ]})
                 Sample.table_args)
              {[ "parameters" := tt ]}) as (_ & H & _);
    [reflexivity | reflexivity |].
  apply H. reflexivity.
Defined.

(** C8 as stated fails: with the key sql among the Data API arguments and
    no source at all, construction fails with the message about the missing
    source, which names neither forbidden key. *)
Lemma init_forbidden_kwarg_unnamed :
  dict_has "sql" ({[ "sql" := tt ]} : gmap string unit) = true
  /\ init (Sample.set_kwargs (Some {[ "sql" := tt ]}) Sample.no_source_args)
     = inl (ValueError missing_source_msg)
  /\ PyStr.contains "sql" missing_source_msg = false
  /\ PyStr.contains "parameters" missing_source_msg = false.
Proof. repeat split; vm_compute; reflexivity. Qed.

(** C9.  For every operator and credentials clause the statement, trimmed
    of surrounding white space, is UNLOAD ($$ followed by the rewritten
    select text and $$), the line TO 's3://bucket/key' with the operator's
    bucket and key, the credentials clause in quotes, and the options joined
    by a line feed and three tabs in the order given, closed by a
    semicolon.  The options text is written out: the first option, then
    each further option behind a line feed and three tabs; no options give
    the empty text. *)
Theorem unload_query_shape :
  forall (pyobj : Type) (self : operator pyobj) (credentials_block : string),
    let sql := PyStr.strip (unload_query self credentials_block) in
    let statement := fun options_text : string =>
      "UNLOAD ($$" +:+ Re.sub_quotes (select_query self) +:+ "$$)"
      +:+ line_break
      +:+ "TO 's3://" +:+ s3_bucket self +:+ "/" +:+ s3_key self +:+ "'"
      +:+ line_break
      +:+ "credentials" +:+ line_break
      +:+ "'" +:+ credentials_block +:+ "'" +:+ line_break
      +:+ options_text +:+ ";" in
    sql =
      statement
        (match unload_options self with
         | [] => ""
         | first :: others =>
             first +:+
             fold_right
               (fun uo text =>
                  String "010" (String "009" (String "009" (String "009"
                    (uo +:+ text)))))
               "" others
         end)
    /\ sql =
         statement
           (PyStr.join
              (String "010" (String "009" (String "009" (String "009" ""))))
              (unload_options self))
    /\ (forall a b c : string,
          unload_options self = [a; b; c] ->
          sql =
            statement
              (a +:+ String "010" (String "009" (String "009" (String "009"
                 (b +:+ String "010" (String "009" (String "009" (String "009"
                    c)))))))))
    /\ (unload_options self = [] -> sql = statement "")
    /\ String.prefix "UNLOAD ($$" sql = true
    /\ exists body, sql = body +:+ ";".
Proof.
  intros pyobj self cb sql statement. subst sql statement.
  unfold unload_query, _build_unload_query. cbv zeta.
  rewrite StatementFacts.strip_template.
  assert (Hjoin := JoinFacts.join_fold options_separator (unload_options self)).
  split; [|split; [|split; [|split; [|split]]]].
  - unfold statement_text. do 19 f_equal. exact Hjoin.
  - reflexivity.
  - intros a b c E. rewrite E. reflexivity.
  - intros E. rewrite E. reflexivity.
  - apply StatementFacts.statement_text_prefix.
  - rewrite StatementFacts.statement_text_end. eexists. reflexivity.
Qed.

Lemma unload_query_shape_witness :
  PyStr.strip
    (unload_query
       (Operator "bucket" "k" None None "redshift_default" None VerifyNone
          ["CSV"; "PARALLEL OFF"; "HEADER"] false true tt true ∅ "SELECT 1")
       "c")
  = "UNLOAD ($$SELECT 1$$)" +:+ line_break
    +:+ "TO 's3://bucket/k'" +:+ line_break
    +:+ "credentials" +:+ line_break
    +:+ "'c'" +:+ line_break
    +:+ "CSV" +:+ String "010" (String "009" (String "009" (String "009"
          ("PARALLEL OFF" +:+ String "010" (String "009" (String "009"
             (String "009" "HEADER;"))))))).
Proof.
  apply (proj1 (proj2 (proj2 (unload_query_shape unit
           (Operator "bucket" "k" None None "redshift_default" None VerifyNone
              ["CSV"; "PARALLEL OFF"; "HEADER"] false true tt true ∅
              "SELECT 1") "c"))) "CSV" "PARALLEL OFF" "HEADER").
  reflexivity.
Defined.

(** C10.  An empty select query is treated like an absent one.  In both
    cases construction fails with the missing-source error unless schema
    and table are both given and non-empty, and when they are the select
    text of the operator is SELECT * FROM schema.table. *)
Theorem empty_select_query_is_absent :
  forall (pyobj : Type) (a : init_args pyobj),
    arg_select_query a = Some "" \/ arg_select_query a = None ->
    init a = init (with_select_query None a)
    /\ (table_resolvable a = false ->
        init a = inl (ValueError missing_source_msg))
    /\ (forall s t self,
          arg_schema a = Some s -> arg_table a = Some t ->
          init a = inr self ->
          select_query self = "SELECT * FROM " +:+ s +:+ "." +:+ t)
    /\ (forall s t,
          arg_schema a = Some s -> arg_table a = Some t ->
          s <> "" -> t <> "" ->
          init_check_kwargs (default ∅ (arg_redshift_data_api_kwargs a))
            = inr tt ->
          exists self,
            init a = inr self
            /\ select_query self = "SELECT * FROM " +:+ s +:+ "." +:+ t).
Proof.
  intros pyobj a Hq.
  assert (Hnq : query_resolvable a = false).
  { unfold query_resolvable. now destruct Hq as [-> | ->]. }
  split; [|split; [|split]].
  - unfold init, init_select_query, with_select_query. cbn.
    now destruct Hq as [-> | ->].
  - intros Ht. apply init_fails_without_source.
    unfold at_least_one_source. now rewrite Hnq, Ht.
  - intros s t self Hs Ht Hi.
    destruct (init_inr a self Hi) as (q & Hsel & _ & -> & _).
    pose proof (init_select_query_some a q Hsel) as Hone.
    unfold at_least_one_source in Hone. rewrite Hnq in Hone.
    rewrite (init_select_query_table a Hnq Hone) in Hsel.
    injection Hsel as <-. now rewrite Hs, Ht.
  - intros s t Hs Ht Hse Hte Hk.
    assert (Hres : table_resolvable a = true).
    { unfold table_resolvable. rewrite Hs, Ht. cbn [PyStr.truthy_opt].
      apply StrFacts.truthy_true in Hse, Hte. now rewrite Hse, Hte. }
    pose proof (init_select_query_table a Hnq Hres) as Hsel.
    rewrite Hs, Ht in Hsel. cbn [format_opt] in Hsel.
    exact (init_succeeds a _ Hsel Hk).
Qed.

Lemma empty_select_query_is_absent_witness :
  init (with_select_query (Some "") Sample.table_args)
  = init (with_select_query None (with_select_query (Some "") Sample.table_args))
  /\ init (with_select_query (Some "") Sample.no_source_args)
     = inl (ValueError missing_source_msg)
  /\ exists self,
       init (with_select_query (Some "") Sample.table_args) = inr self
       /\ select_query self = "SELECT * FROM public.orders".
Proof.
  destruct (empty_select_query_is_absent unit
              (with_select_query (Some "") Sample.table_args)
              (or_introl eq_refl)) as (H1 & _ & _ & H4).
  destruct (empty_select_query_is_absent unit
              (with_select_query (Some "") Sample.no_source_args)
              (or_introl eq_refl)) as (_ & H2 & _).
  split; [exact H1|]. split; [apply H2; reflexivity|].
  apply (H4 "public" "orders"); try reflexivity; discriminate.
Defined.

(** * Further properties *)

(** ** The rewriting of the select text *)

Module ReMore.
Import PyStr Re Rule StrFacts ReFacts.

Lemma has_quote_pair_tail (c : ascii) (rest : string) :
  has_quote_pair (String c rest) = false -> has_quote_pair rest = false.
Proof.
  destruct rest as [|c' rest]; [reflexivity|]. cbn [has_quote_pair].
  intros H. now apply orb_false_iff in H as [_ H].
Qed.

Lemma match_here_needs_pair (s : string) :
  has_quote_pair s = false -> match_here s = None.
Proof.
  destruct s as [|c1 [|c2 rest]]; try reflexivity.
  cbn [has_quote_pair match_here]. intros H.
  apply orb_false_iff in H as [H _]. now rewrite H.
Qed.

Lemma sub_fuel_no_pair (n : nat) :
  forall s, has_quote_pair s = false -> sub_fuel n s = s.
Proof.
  induction n as [|n IH]; intros s H; [reflexivity|].
  cbn [sub_fuel]. rewrite (match_here_needs_pair s H).
  destruct s as [|c rest]; [reflexivity|].
  now rewrite (IH rest (has_quote_pair_tail c rest H)).
Qed.

Lemma sub_fuel_enough (n : nat) (s : string) :
  String.length s <= n -> sub_fuel n s = sub_quotes s.
Proof.
  intros H. apply (rewrites_to_functional s).
  - now apply sub_fuel_rewrites.
  - apply sub_quotes_rewrites.
Qed.

(** The substitution, without fuel. *)
Lemma sub_quotes_unfold (s : string) :
  sub_quotes s =
  match match_here s with
  | Some (inner, post) =>
      String squote (inner +:+ String squote (sub_quotes post))
  | None =>
      match s with
      | EmptyString => EmptyString
      | String c rest => String c (sub_quotes rest)
      end
  end.
Proof.
  rewrite <- (sub_fuel_enough (S (String.length s)) s) by lia.
  cbn [sub_fuel]. destruct (match_here s) as [[inner post]|] eqn:Hm.
  - rewrite sub_fuel_enough; [reflexivity|].
    pose proof (matches_here_shorter _ _ _ (match_here_matches _ _ _ Hm)). lia.
  - destruct s as [|c rest]; [reflexivity|].
    now rewrite sub_fuel_enough by (simpl; lia).
Qed.

Lemma rewrites_to_length (s out : string) :
  rewrites_to s out ->
  exists k, String.length s = String.length out + 2 * k.
Proof.
  induction 1 as [|s inner post out [(-> & _) _] _ [k IH]|c rest out _ _ [k IH]].
  - exists 0. reflexivity.
  - exists (S k). unfold two_quotes. rewrite !length_append. simpl.
    rewrite !length_append. simpl. lia.
  - exists k. simpl. lia.
Qed.

Lemma no_newline_app (a b : string) :
  no_newline (a +:+ b) = no_newline a && no_newline b.
Proof.
  induction a as [|c a IH]; [reflexivity|]. simpl. rewrite IH.
  now rewrite andb_assoc.
Qed.

Lemma has_quote_pair_split (s : string) :
  has_quote_pair s = true -> exists a b, s = a +:+ two_quotes +:+ b.
Proof.
  induction s as [|c1 s IH]; [discriminate|].
  destruct s as [|c2 rest]; [discriminate|].
  cbn [has_quote_pair]. intros H. apply orb_true_iff in H as [H|H].
  - apply andb_prop in H as [H1 H2].
    apply Ascii.eqb_eq in H1 as ->. apply Ascii.eqb_eq in H2 as ->.
    exists "", rest. reflexivity.
  - destruct (IH H) as (a & b & E). exists (String c1 a), b.
    simpl. now rewrite E.
Qed.

(** On one line the greedy match leaves no doubled quote behind it. *)
Lemma greedy_leaves_no_pair (s inner post : string) :
  no_newline s = true -> greedy_match_here s inner post ->
  has_quote_pair (String squote post) = false.
Proof.
  intros Hnl [(E & Hne & Hin) Hmax].
  destruct (has_quote_pair (String squote post)) eqn:Hp; [|reflexivity].
  exfalso. destruct (has_quote_pair_split _ Hp) as (a & b & Eab).
  assert (Es : s = two_quotes +:+ (inner +:+ String squote a)
                   +:+ two_quotes +:+ b).
  { rewrite E. f_equal. rewrite append_assoc. f_equal.
    change (String squote a +:+ two_quotes +:+ b)
      with (String squote (a +:+ two_quotes +:+ b)).
    rewrite <- Eab. reflexivity. }
  assert (Hm : matches_here s (inner +:+ String squote a) b).
  { split; [exact Es|]. split.
    - destruct inner; [congruence | discriminate].
    - rewrite Es in Hnl. rewrite !no_newline_app in Hnl.
      apply andb_prop in Hnl as [_ Hnl]. apply andb_prop in Hnl as [Hnl _].
      now rewrite no_newline_app. }
  apply Hmax in Hm. rewrite length_append in Hm. simpl in Hm. lia.
Qed.

End ReMore.

Module ReLines.
Import PyStr Re Rule StrFacts ReFacts ReMore.

Lemma greedy_match_computed (s inner post : string) :
  greedy_match_here s inner post -> match_here s = Some (inner, post).
Proof.
  intros Hg. destruct Hg as [Hm Hmax].
  destruct (match_here_complete _ _ _ Hm) as (i & p & Hc & _).
  destruct (greedy_unique s inner post i p (conj Hm Hmax)
              (match_here_greedy _ _ _ Hc)) as [-> ->].
  exact Hc.
Qed.

Lemma no_match_computed (s : string) :
  (forall inner post, ~ matches_here s inner post) -> match_here s = None.
Proof.
  intros Hno. destruct (match_here s) as [[i p]|] eqn:Hm; [|reflexivity].
  exfalso. exact (Hno i p (match_here_matches _ _ _ Hm)).
Qed.

Lemma dot_star_line (x b : string) :
  dot_star_quotes (x +:+ String newline b) = behind_line b (dot_star_quotes x).
Proof.
  induction x as [|c x IH].
  - change ("" +:+ String newline b) with (String newline b).
    rewrite dot_star_cons. now destruct b.
  - change (String c x +:+ String newline b)
      with (String c (x +:+ String newline b)).
    rewrite !dot_star_cons, IH.
    destruct (Ascii.eqb c newline) eqn:Hc.
    + apply Ascii.eqb_eq in Hc as ->.
      destruct x as [|c' x]; [now destruct b | reflexivity].
    + destruct (dot_star_quotes x) as [[i p]|]; [reflexivity|].
      destruct x as [|c' x]; cbn [behind_line String.append].
      * now rewrite andb_false_r.
      * now destruct (Ascii.eqb c squote && Ascii.eqb c' squote).
Qed.

Lemma match_here_line (a b : string) :
  match_here (a +:+ String newline b) = behind_line b (match_here a).
Proof.
  destruct a as [|c1 [|c2 rest]].
  - now destruct b.
  - cbn [String.append match_here behind_line]. now rewrite andb_false_r.
  - cbn [String.append match_here].
    destruct (Ascii.eqb c1 squote && Ascii.eqb c2 squote); [|reflexivity].
    destruct rest as [|c rest]; [reflexivity|].
    cbn [String.append dot_plus_quotes].
    destruct (Ascii.eqb c newline); [reflexivity|].
    rewrite dot_star_line. now destruct (dot_star_quotes rest) as [[i p]|].
Qed.

Lemma rewrites_to_lines (a oa b ob : string) :
  rewrites_to a oa -> rewrites_to b ob ->
  rewrites_to (a +:+ String newline b) (oa +:+ String newline ob).
Proof.
  intros Ha Hb.
  induction Ha as [|s inner post out Hg _ IH|c rest out Hno _ IH].
  - apply rewrites_skip; [|exact Hb].
    apply match_here_none. now destruct b.
  - change (String squote (inner +:+ String squote out) +:+ String newline ob)
      with (String squote ((inner +:+ String squote out) +:+ String newline ob)).
    rewrite append_assoc.
    change (String squote out +:+ String newline ob)
      with (String squote (out +:+ String newline ob)).
    apply (rewrites_match _ inner (post +:+ String newline b)); [|exact IH].
    apply match_here_greedy. rewrite match_here_line.
    now rewrite (greedy_match_computed _ _ _ Hg).
  - change (String c rest +:+ String newline b)
      with (String c (rest +:+ String newline b)).
    change (String c out +:+ String newline ob)
      with (String c (out +:+ String newline ob)).
    apply rewrites_skip; [|exact IH].
    apply match_here_none.
    change (String c (rest +:+ String newline b))
      with (String c rest +:+ String newline b).
    rewrite match_here_line. now rewrite (no_match_computed _ Hno).
Qed.

End ReLines.

Module ReSingleLine.
Import PyStr Re Rule StrFacts ReFacts ReMore.

Lemma has_quote_pair_cons (c1 c2 : ascii) (r : string) :
  has_quote_pair (String c1 (String c2 r)) =
  (Ascii.eqb c1 squote && Ascii.eqb c2 squote)
  || has_quote_pair (String c2 r).
Proof. reflexivity. Qed.

(** No doubled quote lies before the first match of a line. *)
Lemma skip_keeps_no_pair (c : ascii) (pre inner post : string) :
  no_newline (String c (pre +:+ two_quotes +:+ inner +:+ two_quotes +:+ post))
    = true ->
  inner <> "" ->
  match_here (String c (pre +:+ two_quotes +:+ inner +:+ two_quotes +:+ post))
    = None ->
  has_quote_pair (pre +:+ String squote "") = false ->
  has_quote_pair (String c (pre +:+ String squote "")) = false.
Proof.
  intros Hnl Hne Hnone Hpre.
  set (s := String c (pre +:+ two_quotes +:+ inner +:+ two_quotes +:+ post))
    in *.
  assert (Hhead : forall x, matches_here s x post -> False).
  { intros x. apply (match_here_none s Hnone). }
  assert (Hin : forall x, s = two_quotes +:+ x +:+ two_quotes +:+ post ->
                          no_newline x = true).
  { intros x E. rewrite E in Hnl. rewrite !no_newline_app in Hnl.
    apply andb_prop in Hnl as [_ Hnl]. now apply andb_prop in Hnl as [Hnl _]. }
  destruct (Ascii.eqb c squote) eqn:Hc.
  2:{ destruct pre as [|c' pre]; cbn [String.append has_quote_pair] in *;
        rewrite Hc; [reflexivity | exact Hpre]. }
  apply Ascii.eqb_eq in Hc. subst c.
  destruct pre as [|c' pre].
  - exfalso. apply (Hhead (String squote inner)).
    assert (E : s = two_quotes +:+ String squote inner +:+ two_quotes +:+ post)
      by reflexivity.
    split; [exact E|]. split; [discriminate | exact (Hin _ E)].
  - destruct (Ascii.eqb c' squote) eqn:Hc'.
    + exfalso. apply Ascii.eqb_eq in Hc'. subst c'.
      apply (Hhead (pre +:+ two_quotes +:+ inner)).
      assert (E : s = two_quotes +:+ (pre +:+ two_quotes +:+ inner)
                      +:+ two_quotes +:+ post).
      { unfold s. cbn [String.append two_quotes]. do 2 f_equal.
        rewrite append_assoc. reflexivity. }
      split; [exact E|]. split; [|exact (Hin _ E)].
      intros H. destruct pre; simpl in H; discriminate.
    + change (String squote (String c' pre +:+ String squote ""))
        with (String squote (String c' (pre +:+ String squote ""))).
      rewrite has_quote_pair_cons, Hc', andb_false_r. exact Hpre.
Qed.

Lemma single_line_rewrite (s : string) :
  no_newline s = true ->
  sub_quotes s = s
  \/ exists pre inner post,
       s = pre +:+ two_quotes +:+ inner +:+ two_quotes +:+ post
       /\ inner <> ""
       /\ has_quote_pair (pre +:+ String squote "") = false
       /\ has_quote_pair (String squote post) = false
       /\ sub_quotes s
          = pre +:+ String squote (inner +:+ String squote post).
Proof.
  induction s as [|c rest IH]; intros Hnl; [left; reflexivity|].
  rewrite sub_quotes_unfold.
  destruct (match_here (String c rest)) as [[inner post]|] eqn:Hm.
  - right. exists "", inner, post.
    pose proof (match_here_greedy _ _ _ Hm) as Hg.
    pose proof (greedy_leaves_no_pair _ _ _ Hnl Hg) as Hp.
    destruct Hg as [(E & Hne & _) _].
    repeat split; try assumption.
    cbn [String.append]. do 3 f_equal.
    unfold sub_quotes. apply sub_fuel_no_pair.
    exact (has_quote_pair_tail _ _ Hp).
  - assert (Hrest : no_newline rest = true).
    { simpl in Hnl. now apply andb_prop in Hnl as [_ Hnl]. }
    destruct (IH Hrest) as [E|(pre & inner & post & E & Hne & Hpre & Hpost & Hs)].
    + left. now rewrite E.
    + right. exists (String c pre), inner, post. subst rest.
      repeat split; try assumption.
      * now apply (skip_keeps_no_pair c pre inner post).
      * cbn [String.append]. now rewrite Hs.
Qed.

End ReSingleLine.

(** ** Construction, further *)

Section InitMore.

Context {pyobj : Type}.
Implicit Types (a : init_args pyobj) (self : operator pyobj)
  (d : gmap string pyobj).

Lemma dict_has_false (k : string) d : dict_has k d = false <-> d !! k = None.
Proof.
  unfold dict_has. rewrite bool_decide_eq_false.
  rewrite <- eq_None_not_Some. reflexivity.
Qed.

Lemma init_check_kwargs_ok d :
  init_check_kwargs d = inr tt <-> d !! "sql" = None /\ d !! "parameters" = None.
Proof.
  rewrite <- !dict_has_false. split.
  - intros Hok.
    destruct (dict_has "sql" d || dict_has "parameters" d) eqn:E.
    + rewrite (init_check_kwargs_forbidden d E) in Hok. discriminate.
    + now apply orb_false_iff in E.
  - intros [Hs Hp]. unfold init_check_kwargs.
    destruct (dict_truthy d); [|reflexivity].
    cbn [check_kwargs]. now rewrite Hs, Hp.
Qed.

Lemma init_select_query_ok a :
  at_least_one_source a = true -> exists q, init_select_query a = inr q.
Proof.
  intros H. destruct (init_select_query a) as [e|q] eqn:E; [|now exists q].
  exfalso. unfold at_least_one_source, query_resolvable, table_resolvable,
    init_select_query in *.
  destruct (arg_select_query a) as [s|]; cbn [PyStr.truthy_opt] in *.
  - destruct (PyStr.truthy s); [discriminate|].
    cbn [orb] in H. rewrite H in E. discriminate.
  - cbn [orb] in H. rewrite H in E. discriminate.
Qed.

Lemma init_unload_options_twice (flag : bool) (opts : list string) :
  init_unload_options flag (init_unload_options flag opts)
  = init_unload_options flag opts.
Proof.
  destruct flag; [|reflexivity]. unfold init_unload_options. cbn [andb].
  destruct (list_has "HEADER" (normalized_options opts)) eqn:E; cbn [negb].
  - now rewrite E.
  - assert (H : list_has "HEADER" (normalized_options (opts ++ ["HEADER"]))
                = true).
    { unfold list_has, normalized_options.
      rewrite List.map_app, existsb_app. apply orb_true_iff. now right. }
    now rewrite H.
Qed.

End InitMore.

(** ** The header test, further *)

Module HeaderMore.
Import PyStr StrFacts.

Lemma upper_space (c : ascii) : is_space c = true -> upper_char c = c.
Proof.
  destruct c as [[] [] [] [] [] [] [] []]; vm_compute; congruence.
Qed.

Lemma upper_all_space (ws : string) : all_space ws = true -> upper ws = ws.
Proof.
  induction ws as [|c ws IH]; [reflexivity|]. simpl.
  intros H. apply andb_prop in H as [Hc Hws].
  now rewrite (upper_space c Hc), (IH Hws).
Qed.

Lemma upper_app (a b : string) : upper (a +:+ b) = upper a +:+ upper b.
Proof. induction a as [|c a IH]; [reflexivity|]. simpl. now rewrite IH. Qed.

Lemma lstrip_all_space (ws s : string) :
  all_space ws = true -> lstrip (ws +:+ s) = lstrip s.
Proof.
  induction ws as [|c ws IH]; [reflexivity|]. simpl.
  intros H. apply andb_prop in H as [Hc Hws]. now rewrite Hc, (IH Hws).
Qed.

Lemma rstrip_all_space (ws : string) : all_space ws = true -> rstrip ws = "".
Proof.
  induction ws as [|c ws IH]; [reflexivity|]. simpl.
  intros H. apply andb_prop in H as [Hc Hws]. now rewrite (IH Hws), Hc.
Qed.

Lemma strip_padded_header (ws1 h ws2 : string) :
  all_space ws1 = true -> all_space ws2 = true -> upper h = "HEADER" ->
  strip (upper (ws1 +:+ h +:+ ws2)) = "HEADER".
Proof.
  intros H1 H2 Hh. rewrite !upper_app, Hh.
  rewrite (upper_all_space ws1 H1), (upper_all_space ws2 H2).
  unfold strip. rewrite (lstrip_all_space ws1 _ H1).
  change (lstrip ("HEADER" +:+ ws2)) with ("HEADE" +:+ String "R" ws2).
  now rewrite StatementFacts.rstrip_keeps
    by (reflexivity || now apply rstrip_all_space).
Qed.

End HeaderMore.

(** ** Execution, further *)

Section ExecuteMore.

Context {pyobj : Type}.
Implicit Types (env : collaborators pyobj) (self : operator pyobj)
  (a : init_args pyobj).

(** Every way [resolve_credentials] can go. *)
Lemma resolve_credentials_cases env self :
  resolve_credentials env self =
  let id := format_opt (aws_conn_id self) in
  let fetch_keys tr :=
    match get_credentials env (aws_conn_id self) (verify self) with
    | inl e =>
        (tr ++ [GetCredentials (aws_conn_id self) (verify self)], inl e)
    | inr creds =>
        (tr ++ [GetCredentials (aws_conn_id self) (verify self)],
         inr (build_credentials_block env creds))
    end in
  if PyStr.truthy_opt (aws_conn_id self)
  then match get_connection env id with
       | inl e => ([GetConnection id], inl e)
       | inr conn =>
           match truthy_role_arn conn with
           | Some v =>
               ([GetConnection id], inr ("aws_iam_role=" +:+ extra_format v))
           | None => fetch_keys [GetConnection id]
           end
       end
  else fetch_keys [].
Proof.
  unfold resolve_credentials, truthy_role_arn. cbv zeta.
  destruct (PyStr.truthy_opt (aws_conn_id self)).
  - destruct (get_connection env _) as [e|c]; [reflexivity|].
    cbn [call bind ret].
    destruct (extra_dejson c !! "role_arn") as [v|];
      [destruct (extra_truthy v)|]; try reflexivity;
      now destruct (get_credentials env _ _).
  - cbn [bind ret]. now destruct (get_credentials env _ _).
Qed.

Ltac resolve_cases env self :=
  rewrite (resolve_credentials_cases env self); cbv zeta;
  repeat match goal with
         | |- context [match ?x with _ => _ end] => destruct x
         | |- context [if ?x then _ else _] => destruct x
         end.

Lemma resolve_credentials_no_log env self :
  List.filter is_log (trace (resolve_credentials env self)) = [].
Proof. resolve_cases env self; reflexivity. Qed.

Lemma resolve_credentials_calls env self :
  length (List.filter is_get_connection (trace (resolve_credentials env self)))
    <= 1
  /\ length (List.filter is_get_credentials
               (trace (resolve_credentials env self))) <= 1
  /\ length (trace (resolve_credentials env self)) <= 2.
Proof. resolve_cases env self; cbn; lia. Qed.

(** The one event of a submission. *)
Lemma submission_trace env self cb :
  exists ev, trace (submission env self cb) = [ev]
             /\ is_submission ev = true
             /\ is_log ev = false
             /\ is_get_connection ev = false
             /\ is_get_credentials ev = false.
Proof.
  unfold submission, submit. destruct (choose_hook self);
    eexists; repeat split; reflexivity.
Qed.

(** The whole trace of [execute] behind the credentials. *)
Lemma execute_trace env self tr cb :
  resolve_credentials env self = (tr, inr cb) ->
  exists ev,
    trace (submission env self cb) = [ev]
    /\ is_submission ev = true /\ is_log ev = false
    /\ is_get_connection ev = false /\ is_get_credentials ev = false
    /\ trace (execute env self) =
         tr ++ LogInfo "Executing UNLOAD command..." :: ev ::
           match outcome (execute env self) with
           | inr _ => [LogInfo "UNLOAD command complete..."]
           | inl _ => []
           end.
Proof.
  intros Hr. destruct (submission_trace env self cb)
    as (ev & Hev & H1 & H2 & H3 & H4).
  exists ev. repeat split; try assumption.
  rewrite (execute_with_credentials env self tr cb Hr), Hev.
  now destruct (outcome (submission env self cb)).
Qed.

Lemma init_inr_fields a self :
  init a = inr self ->
  redshift_data_api_kwargs self = default ∅ (arg_redshift_data_api_kwargs a)
  /\ redshift_conn_id self = arg_redshift_conn_id a
  /\ autocommit self = arg_autocommit a
  /\ parameters self = arg_parameters a
  /\ aws_conn_id self = arg_aws_conn_id a
  /\ verify self = arg_verify a.
Proof.
  unfold init. intros H.
  destruct (init_select_query a) as [e|q]; [discriminate|].
  destruct (init_check_kwargs _) as [e|[]]; [discriminate|].
  injection H as <-. repeat split; reflexivity.
Qed.

End ExecuteMore.

(** ** Quotes in the table source *)

Module QuoteFacts.
Import PyStr.

Lemma has_quote_app (a b : string) :
  has_quote (a +:+ b) = has_quote a || has_quote b.
Proof.
  induction a as [|c a IH]; [reflexivity|]. simpl. rewrite IH.
  now rewrite orb_assoc.
Qed.

Lemma no_quote_no_pair (s : string) :
  has_quote s = false -> has_quote_pair s = false.
Proof.
  induction s as [|c s IH]; [reflexivity|]. simpl. intros H.
  apply orb_false_iff in H as [Hc Hs].
  destruct s as [|c' s]; [reflexivity|].
  rewrite Hc. cbn [andb orb]. exact (IH Hs).
Qed.

End QuoteFacts.

(** ** Counting the rewritten occurrences *)

Module ReCount.
Import PyStr Re Rule StrFacts ReFacts.

Lemma count_length (n : nat) :
  forall s, String.length s <= n ->
    String.length s = String.length (sub_fuel n s) + 2 * count_fuel n s.
Proof.
  induction n as [|n IH]; intros s Hlen; [simpl; lia|].
  cbn [sub_fuel count_fuel].
  destruct (match_here s) as [[inner post]|] eqn:Hm.
  - pose proof (match_here_matches _ _ _ Hm) as Hmatch.
    pose proof (matches_here_shorter _ _ _ Hmatch) as Hshort.
    destruct Hmatch as (E & _ & _).
    assert (Hs : String.length s
                 = 4 + String.length inner + String.length post).
    { rewrite E. unfold two_quotes. rewrite !length_append. simpl. lia. }
    specialize (IH post ltac:(lia)).
    cbn [String.length]. rewrite length_append. cbn [String.length]. lia.
  - destruct s as [|c rest]; [reflexivity|].
    simpl in Hlen. specialize (IH rest ltac:(lia)).
    cbn [String.length]. lia.
Qed.

Lemma count_zero (n : nat) :
  forall s, count_fuel n s = 0 -> sub_fuel n s = s.
Proof.
  induction n as [|n IH]; intros s H; [reflexivity|].
  cbn [sub_fuel count_fuel] in *.
  destruct (match_here s) as [[inner post]|]; [discriminate|].
  destruct s as [|c rest]; [reflexivity|]. now rewrite (IH rest H).
Qed.

End ReCount.

(** * Further properties of the operator *)

(** X1.  A select text without two adjacent single quotes is embedded in
    the statement as it is. *)
Theorem build_unload_query_keeps_plain_text :
  forall (pyobj : Type) (self : operator pyobj)
         (credentials_block select_query s3_key unload_options : string),
    has_quote_pair select_query = false ->
    _build_unload_query self credentials_block select_query s3_key
      unload_options
    = unload_template (s3_bucket self) select_query s3_key credentials_block
        unload_options.
Proof.
  intros pyobj self cb q key opts H. unfold _build_unload_query.
  cbv zeta. unfold Re.sub_quotes. now rewrite ReMore.sub_fuel_no_pair.
Qed.

Lemma build_unload_query_keeps_plain_text_witness :
  _build_unload_query Sample.table_operator "c"
    "SELECT * FROM t WHERE name = 'x'" "k" ""
  = unload_template "bucket" "SELECT * FROM t WHERE name = 'x'" "k" "c" "".
Proof.
  apply (build_unload_query_keeps_plain_text unit Sample.table_operator).
  reflexivity.
Defined.

(** X2.  Every rewritten occurrence drops exactly two characters: the
    select text is longer than its rewriting by twice the number of
    occurrences the scan replaces, and that number is zero exactly when the
    rewriting leaves the text as it is. *)
Theorem sub_quotes_drops_two_per_match :
  forall s : string,
    String.length s
    = String.length (Re.sub_quotes s) + 2 * count_rewritten s
    /\ (count_rewritten s = 0 <-> Re.sub_quotes s = s).
Proof.
  intros s.
  assert (H : String.length s
              = String.length (Re.sub_quotes s) + 2 * count_rewritten s).
  { apply ReCount.count_length. reflexivity. }
  split; [exact H|]. split.
  - apply ReCount.count_zero.
  - intros E. rewrite E in H. lia.
Qed.

Lemma sub_quotes_drops_two_per_match_witness :
  String.length ("a = ''x''" +:+ String "010" "b = ''y''")
  = String.length
      (Re.sub_quotes ("a = ''x''" +:+ String "010" "b = ''y''"))
    + 2 * 2.
Proof.
  exact (proj1 (sub_quotes_drops_two_per_match
                  ("a = ''x''" +:+ String "010" "b = ''y''"))).
Defined.

(** X3.  On a select text of one line at most one occurrence is rewritten.
    It reaches from the first doubled quote of the line to the last one:
    these two lose a quote each, and doubled quotes between them stay. *)
Theorem sub_quotes_single_line :
  forall s : string,
    PyStr.no_newline s = true ->
    Re.sub_quotes s = s
    \/ exists pre inner post,
         s = pre +:+ Rule.two_quotes +:+ inner +:+ Rule.two_quotes +:+ post
         /\ inner <> ""
         /\ has_quote_pair (pre +:+ String PyStr.squote "") = false
         /\ has_quote_pair (String PyStr.squote post) = false
         /\ Re.sub_quotes s
            = pre +:+ String PyStr.squote
                        (inner +:+ String PyStr.squote post).
Proof. exact ReSingleLine.single_line_rewrite. Qed.

Lemma sub_quotes_single_line_witness :
  Re.sub_quotes "a = ''x'' and b = ''y''" = "a = ''x'' and b = ''y''"
  \/ exists pre inner post,
       "a = ''x'' and b = ''y''"
       = pre +:+ Rule.two_quotes +:+ inner +:+ Rule.two_quotes +:+ post
       /\ inner <> ""
       /\ has_quote_pair (pre +:+ String PyStr.squote "") = false
       /\ has_quote_pair (String PyStr.squote post) = false
       /\ Re.sub_quotes "a = ''x'' and b = ''y''"
          = pre +:+ String PyStr.squote
                      (inner +:+ String PyStr.squote post).
Proof.
  apply (sub_quotes_single_line "a = ''x'' and b = ''y''"). reflexivity.
Defined.

(** X4.  The rewriting works line by line: the result for two texts joined
    by a line feed is the two results joined by a line feed. *)
Theorem sub_quotes_line_by_line :
  forall a b : string,
    Re.sub_quotes (a +:+ String PyStr.newline b)
    = Re.sub_quotes a +:+ String PyStr.newline (Re.sub_quotes b).
Proof.
  intros a b. symmetry. apply ReFacts.rewrites_to_sub_quotes.
  apply ReLines.rewrites_to_lines; apply ReFacts.sub_quotes_rewrites.
Qed.

(** X5.  Construction has three outcomes.  It succeeds exactly when a
    source is resolvable and the Data API arguments hold neither the key
    sql nor the key parameters; it raises the missing-source error exactly
    when no source is resolvable; and it raises the error about a forbidden
    key exactly when a source is resolvable and one of the two keys is
    there. *)
Theorem init_outcomes :
  forall (pyobj : Type) (a : init_args pyobj),
    let d := default ∅ (arg_redshift_data_api_kwargs a) in
    ((exists self, init a = inr self)
       <-> at_least_one_source a = true
           /\ d !! "sql" = None /\ d !! "parameters" = None)
    /\ (init a = inl (ValueError missing_source_msg)
          <-> at_least_one_source a = false)
    /\ (init a = inl (AirflowException (forbidden_kwarg_msg (offending_key d)))
          <-> at_least_one_source a = true
              /\ (is_Some (d !! "sql") \/ is_Some (d !! "parameters"))).
Proof.
  intros pyobj a d.
  assert (Hforb : is_Some (d !! "sql") \/ is_Some (d !! "parameters") ->
                  dict_has "sql" d || dict_has "parameters" d = true).
  { intros [H|H]; apply orb_true_iff; [left|right];
      now apply bool_decide_eq_true. }
  destruct (at_least_one_source a) eqn:Hs.
  - destruct (init_select_query_ok a Hs) as [q Hq].
    split; [|split].
    + split.
      * intros [self H]. split; [reflexivity|].
        apply init_check_kwargs_ok.
        now destruct (init_inr a self H) as (q' & _ & Hk & _).
      * intros (_ & H1 & H2).
        destruct (init_succeeds a q Hq) as (self & H & _).
        { apply init_check_kwargs_ok. now split. }
        now exists self.
    + split; [|discriminate]. intros H. unfold init in H. rewrite Hq in H.
      fold d in H. destruct (init_check_kwargs d) as [e|[]] eqn:Hk;
        [|discriminate].
      destruct (dict_has "sql" d || dict_has "parameters" d) eqn:E.
      * rewrite (init_check_kwargs_forbidden d E) in Hk. congruence.
      * apply orb_false_iff in E as [E1 E2].
        apply dict_has_false in E1, E2.
        assert (Hok : init_check_kwargs d = inr tt)
          by now apply init_check_kwargs_ok.
        congruence.
    + split.
      * intros H. split; [reflexivity|].
        destruct (d !! "sql") eqn:E1; [left; eauto|].
        destruct (d !! "parameters") eqn:E2; [right; eauto|].
        exfalso. destruct (init_succeeds a q Hq) as (self & H' & _).
        { apply init_check_kwargs_ok. now split. }
        congruence.
      * intros [_ H]. unfold init. rewrite Hq. fold d.
        now rewrite (init_check_kwargs_forbidden d (Hforb H)).
  - pose proof (init_fails_without_source a Hs) as Hf.
    split; [|split].
    + split; [intros [self H]; congruence | intros [H _]; discriminate].
    + split; [reflexivity | intros _; exact Hf].
    + split; [intros H; congruence | intros [H _]; discriminate].
Qed.

Lemma init_outcomes_witness :
  exists self, init Sample.table_args = inr self.
Proof.
  apply (proj1 (init_outcomes unit Sample.table_args)).
  repeat split; reflexivity.
Defined.

(** X6.  The header flag is added once only: constructing again with the
    option list of a constructed operator gives that very operator. *)
Theorem init_header_added_once :
  forall (pyobj : Type) (a : init_args pyobj) (self : operator pyobj),
    init a = inr self ->
    init (with_unload_options (Some (unload_options self)) a) = inr self.
Proof.
  intros pyobj a self H. unfold init in *.
  change (init_select_query (with_unload_options _ a))
    with (init_select_query a).
  destruct (init_select_query a) as [e|q]; [discriminate|].
  cbn [with_unload_options arg_redshift_data_api_kwargs arg_unload_options
       arg_include_header arg_s3_bucket arg_s3_key arg_schema arg_table
       arg_redshift_conn_id arg_aws_conn_id arg_verify arg_autocommit
       arg_parameters arg_table_as_file_name].
  destruct (init_check_kwargs _) as [e|[]]; [discriminate|].
  injection H as <-. cbn [unload_options]. do 2 f_equal.
  apply init_unload_options_twice.
Qed.

Lemma init_header_added_once_witness :
  init (with_unload_options (Some ["HEADER"])
          (Sample.set_header_options None Sample.table_args))
  = init (Sample.set_header_options None Sample.table_args).
Proof.
  destruct (init (Sample.set_header_options None Sample.table_args))
    as [e|self] eqn:E; [discriminate E|].
  rewrite <- (init_header_added_once unit _ self E).
  injection E as <-. reflexivity.
Defined.

(** X7.  Construction never removes, changes or reorders the options it is
    given: the operator's list is the given list, or the given list with
    HEADER behind it, and without include_header it is the given list. *)
Theorem init_keeps_given_options :
  forall (pyobj : Type) (a : init_args pyobj) (self : operator pyobj),
    init a = inr self ->
    let given := default [] (arg_unload_options a) in
    (unload_options self = given \/ unload_options self = given ++ ["HEADER"])
    /\ (arg_include_header a = false -> unload_options self = given)
    /\ (forall (i : nat) (uo : string),
          given !! i = Some uo -> unload_options self !! i = Some uo).
Proof.
  intros pyobj a self H given.
  destruct (init_inr a self H) as (q & _ & _ & _ & _ & _ & Ho).
  fold given in Ho. rewrite Ho. unfold init_unload_options.
  split; [|split].
  - destruct (_ && _); [right | left]; reflexivity.
  - now intros ->.
  - intros i uo Hi. destruct (_ && _); [|exact Hi].
    now apply lookup_app_l_Some.
Qed.

Lemma init_keeps_given_options_witness :
  exists self,
    init (Sample.set_header_options (Some ["CSV"; "GZIP"]) Sample.table_args)
      = inr self
    /\ unload_options self !! 1 = Some "GZIP".
Proof.
  eexists. split; [reflexivity|].
  apply (init_keeps_given_options unit
           (Sample.set_header_options (Some ["CSV"; "GZIP"]) Sample.table_args));
    reflexivity.
Defined.

(** X8.  An option that spells HEADER in any letter case, with any white
    space around it, counts as the header flag: a list that holds one is left
    as it is, with or without include_header. *)
Theorem init_recognises_padded_header :
  forall (pyobj : Type) (a : init_args pyobj) (self : operator pyobj)
         (before after : list string) (ws1 h ws2 : string),
    init a = inr self ->
    arg_unload_options a = Some (before ++ (ws1 +:+ h +:+ ws2) :: after) ->
    all_space ws1 = true -> all_space ws2 = true ->
    PyStr.upper h = "HEADER" ->
    unload_options self = before ++ (ws1 +:+ h +:+ ws2) :: after.
Proof.
  intros pyobj a self before after ws1 h ws2 H Ho H1 H2 Hh.
  destruct (init_inr a self H) as (q & _ & _ & _ & _ & _ & ->).
  rewrite Ho. cbn [default from_option id]. unfold init_unload_options.
  assert (Hhas : list_has "HEADER"
                   (normalized_options
                      (before ++ (ws1 +:+ h +:+ ws2) :: after)) = true).
  { unfold list_has, normalized_options.
    rewrite List.map_app, existsb_app. apply orb_true_iff. right.
    cbn [map existsb].
    now rewrite (HeaderMore.strip_padded_header ws1 h ws2 H1 H2 Hh). }
  now rewrite Hhas, andb_false_r.
Qed.

Lemma init_recognises_padded_header_witness :
  exists self,
    init (Sample.set_header_options (Some ["CSV"; "  Header "])
            Sample.table_args) = inr self
    /\ unload_options self = ["CSV"; "  Header "].
Proof.
  eexists. split; [reflexivity|].
  apply (init_recognises_padded_header unit
           (Sample.set_header_options (Some ["CSV"; "  Header "])
              Sample.table_args) _ ["CSV"] [] "  " "Header" " ");
    reflexivity.
Defined.

(** X9.  Without a storage connection id, or when the fetched connection
    has no truthy role_arn entry, the credentials clause is what
    [build_credentials_block] makes of the key pair: [get_credentials] is
    called once, with the operator's connection id and verify setting, and
    without a connection id no connection is fetched. *)
Theorem keys_give_credentials_clause :
  forall (pyobj : Type) (env : collaborators pyobj) (self : operator pyobj)
         (creds : credentials),
    (PyStr.truthy_opt (aws_conn_id self) = false
     \/ exists conn,
          get_connection env (format_opt (aws_conn_id self)) = inr conn
          /\ truthy_role_arn conn = None) ->
    get_credentials env (aws_conn_id self) (verify self) = inr creds ->
    outcome (resolve_credentials env self)
      = inr (build_credentials_block env creds)
    /\ List.filter is_get_credentials (trace (execute env self))
       = [GetCredentials (aws_conn_id self) (verify self)]
    /\ (PyStr.truthy_opt (aws_conn_id self) = false ->
        List.filter is_get_connection (trace (execute env self)) = []).
Proof.
  intros pyobj env self creds Hno Hcreds.
  assert (Hr : resolve_credentials env self =
               ((if PyStr.truthy_opt (aws_conn_id self)
                 then [GetConnection (format_opt (aws_conn_id self))]
                 else [])
                ++ [GetCredentials (aws_conn_id self) (verify self)],
                inr (build_credentials_block env creds))).
  { rewrite resolve_credentials_cases. cbv zeta. rewrite Hcreds.
    destruct Hno as [-> | (conn & -> & ->)]; [reflexivity|].
    now destruct (PyStr.truthy_opt (aws_conn_id self)). }
  destruct (execute_trace env self _ _ Hr) as (ev & _ & _ & _ & Hc & Hk & Ht).
  rewrite Ht, Hr. split; [reflexivity|].
  rewrite !List.filter_app. cbn [List.filter is_get_credentials is_get_connection].
  rewrite Hc, Hk.
  split.
  - destruct (PyStr.truthy_opt (aws_conn_id self));
      now destruct (outcome (execute env self)).
  - intros ->. now destruct (outcome (execute env self)).
Qed.

Lemma keys_give_credentials_clause_witness :
  outcome (resolve_credentials Sample.keys_env Sample.data_api_operator)
  = inr "aws_access_key_id=AKIA;aws_secret_access_key=secret".
Proof.
  apply (keys_give_credentials_clause unit Sample.keys_env
           Sample.data_api_operator (ReadOnlyCredentials "AKIA" "secret" None)).
  - right. exists (Connection ∅). split; reflexivity.
  - reflexivity.
Defined.

(** X10.  When fetching the storage connection raises, [execute] ends with
    that exception at once: no credentials are fetched, nothing is logged
    and no hook is called. *)
Theorem get_connection_failure_stops_execute :
  forall (pyobj : Type) (env : collaborators pyobj) (self : operator pyobj)
         (e : exception),
    PyStr.truthy_opt (aws_conn_id self) = true ->
    get_connection env (format_opt (aws_conn_id self)) = inl e ->
    execute env self
    = ([GetConnection (format_opt (aws_conn_id self))], inl e).
Proof.
  intros pyobj env self e Hid Hconn.
  apply execute_without_credentials.
  rewrite resolve_credentials_cases. cbv zeta. now rewrite Hid, Hconn.
Qed.

Lemma get_connection_failure_stops_execute_witness :
  execute
    {| get_connection := fun _ => inl (HookError "unknown connection");
       get_credentials := fun _ _ =>
         inr (ReadOnlyCredentials "AKIA" "secret" None);
       build_credentials_block := fun _ => "";
       execute_query := fun _ _ _ _ => inr tt;
       run := fun _ _ _ _ => inr tt |}
    Sample.table_operator
  = ([GetConnection "aws_default"], inl (HookError "unknown connection")).
Proof.
  apply (get_connection_failure_stops_execute unit); reflexivity.
Defined.

(** X11.  The log lines of [execute]: none when resolving the credentials
    raises; otherwise the line before the hook call, followed by the line
    of completion exactly when [execute] ends without an exception. *)
Theorem execute_log_lines :
  forall (pyobj : Type) (env : collaborators pyobj) (self : operator pyobj),
    List.filter is_log (trace (execute env self)) =
      match outcome (resolve_credentials env self),
            outcome (execute env self) with
      | inl _, _ => []
      | inr _, inl _ => [LogInfo "Executing UNLOAD command..."]
      | inr _, inr _ => [LogInfo "Executing UNLOAD command...";
                         LogInfo "UNLOAD command complete..."]
      end
    /\ List.filter is_completion_log (trace (execute env self)) =
         match outcome (execute env self) with
         | inr _ => [LogInfo "UNLOAD command complete..."]
         | inl _ => []
         end.
Proof.
  intros pyobj env self.
  pose proof (resolve_credentials_no_log env self) as Hnl.
  assert (Hnc : List.filter is_completion_log
                  (trace (resolve_credentials env self)) = []).
  { revert Hnl. generalize (trace (resolve_credentials env self)).
    induction l as [|ev l IH]; [reflexivity|].
    destruct ev; cbn [List.filter is_log is_completion_log];
      try discriminate; exact IH. }
  destruct (resolve_credentials env self) as [tr [e|cb]] eqn:Hr;
    unfold trace, outcome in Hnl, Hnc; cbn [fst snd] in Hnl, Hnc.
  - rewrite (execute_without_credentials env self tr e Hr).
    unfold trace, outcome; cbn [fst snd]. now rewrite Hnl, Hnc.
  - destruct (execute_trace env self tr cb Hr)
      as (ev & _ & Hs & Hl & _ & _ & Ht).
    rewrite Ht. rewrite !List.filter_app, Hnl, Hnc.
    assert (Hcl : is_completion_log ev = false) by now destruct ev.
    destruct (outcome (execute env self));
      cbn [app List.filter]; rewrite Hl, Hcl; split; reflexivity.
Qed.

(** X12.  One run of [execute] calls each collaborator at most once and
    never repeats a call: at most one connection fetch, one credentials
    fetch and one hook call, five events in all. *)
Theorem execute_calls_at_most_once :
  forall (pyobj : Type) (env : collaborators pyobj) (self : operator pyobj),
    let tr := trace (execute env self) in
    length (List.filter is_get_connection tr) <= 1
    /\ length (List.filter is_get_credentials tr) <= 1
    /\ length (List.filter is_submission tr) <= 1
    /\ length tr <= 5.
Proof.
  intros pyobj env self tr. subst tr.
  pose proof (resolve_credentials_calls env self) as (H1 & H2 & H3).
  pose proof (resolve_credentials_no_submission env self) as H4.
  destruct (resolve_credentials env self) as [tr [e|cb]] eqn:Hr;
    unfold trace in H1, H2, H3, H4; cbn [fst] in H1, H2, H3, H4.
  - rewrite (execute_without_credentials env self tr e Hr).
    unfold trace; cbn [fst]. rewrite H4. cbn. lia.
  - destruct (execute_trace env self tr cb Hr)
      as (ev & _ & Hs & _ & Hc & Hk & Ht).
    rewrite Ht. rewrite !List.filter_app, !length_app, H4.
    cbn [List.filter is_get_connection is_get_credentials is_submission].
    rewrite Hs, Hc, Hk.
    destruct (outcome (execute env self)); cbn; lia.
Qed.

(** X13.  An operator constructed without Data API arguments, or with an
    empty dictionary of them, never calls [execute_query]: once the
    credentials clause is there, its one hook call is [run] with the
    connection id, the autocommit flag and the parameters of the
    construction. *)
Theorem no_data_api_kwargs_means_sql_hook :
  forall (pyobj : Type) (a : init_args pyobj) (self : operator pyobj)
         (env : collaborators pyobj),
    init a = inr self ->
    arg_redshift_data_api_kwargs a = None
    \/ arg_redshift_data_api_kwargs a = Some ∅ ->
    List.filter is_execute_query (trace (execute env self)) = []
    /\ forall credentials_block,
         outcome (resolve_credentials env self) = inr credentials_block ->
         List.filter is_submission (trace (execute env self))
         = [Run (arg_redshift_conn_id a) (unload_query self credentials_block)
              (arg_autocommit a) (arg_parameters a)].
Proof.
  intros pyobj a self env Hi Hk.
  destruct (init_inr_fields a self Hi) as (Hd & Hc & Ha & Hp & _ & _).
  assert (Hfalsy : dict_truthy (redshift_data_api_kwargs self) = false).
  { rewrite Hd. now destruct Hk as [-> | ->]. }
  pose proof (resolve_credentials_no_submission env self) as Hn.
  assert (Hq : forall tr : list (event pyobj),
            List.filter is_submission tr = [] ->
            List.filter is_execute_query tr = []).
  { induction tr as [|ev tr IH]; [reflexivity|].
    destruct ev; cbn [List.filter is_submission is_execute_query];
      try discriminate; exact IH. }
  rewrite <- Hc, <- Ha, <- Hp.
  destruct (resolve_credentials env self) as [tr [e|cb]] eqn:Hr;
    unfold trace, outcome in *; cbn [fst snd] in *.
  - rewrite (execute_without_credentials env self tr e Hr). cbn [fst].
    split; [now apply Hq | discriminate].
  - rewrite (execute_with_credentials env self tr cb Hr),
      (submission_sql env self cb Hfalsy).
    unfold call, trace, outcome; cbn [fst snd].
    destruct (run env _ _ _ _) as [e|[]]; cbn [fst];
      rewrite !List.filter_app, Hn, (Hq tr Hn);
      (split; [reflexivity | intros cb' E; injection E as <-; reflexivity]).
Qed.

Lemma no_data_api_kwargs_means_sql_hook_witness :
  List.filter is_execute_query
    (trace (execute Sample.role_env Sample.table_operator)) = [].
Proof.
  apply (no_data_api_kwargs_means_sql_hook unit Sample.table_args
           Sample.table_operator Sample.role_env).
  - reflexivity.
  - left. reflexivity.
Defined.

(** X14.  For an operator constructed from a schema and a table that hold
    no single quote, and without a select query, the statement unloads
    exactly SELECT * FROM schema.table: the rewriting of the select text
    changes nothing. *)
Theorem table_source_statement :
  forall (pyobj : Type) (a : init_args pyobj) (self : operator pyobj)
         (s t credentials_block : string),
    init a = inr self ->
    query_resolvable a = false ->
    arg_schema a = Some s -> arg_table a = Some t ->
    has_quote s = false -> has_quote t = false ->
    PyStr.strip (unload_query self credentials_block)
    = statement_text (arg_s3_bucket a)
        ("SELECT * FROM " +:+ s +:+ "." +:+ t) (s3_key self)
        credentials_block
        (PyStr.join options_separator (unload_options self)).
Proof.
  intros pyobj a self s t cb Hi Hq Hs Ht Hqs Hqt.
  destruct (init_inr a self Hi) as (q & Hsel & _ & Hsq & Hb & _).
  pose proof (init_select_query_some a q Hsel) as Hone.
  unfold at_least_one_source in Hone. rewrite Hq in Hone.
  rewrite (init_select_query_table a Hq Hone), Hs, Ht in Hsel.
  cbn [format_opt] in Hsel. injection Hsel as <-.
  unfold unload_query, _build_unload_query. cbv zeta.
  rewrite StatementFacts.strip_template, Hsq, Hb. f_equal.
  unfold Re.sub_quotes. apply ReMore.sub_fuel_no_pair.
  apply QuoteFacts.no_quote_no_pair.
  rewrite !QuoteFacts.has_quote_app, Hqs, Hqt. reflexivity.
Qed.

Lemma table_source_statement_witness :
  PyStr.strip (unload_query Sample.table_operator "c")
  = statement_text "bucket" "SELECT * FROM public.orders" "exports/orders_"
      "c" "".
Proof.
  apply (table_source_statement unit Sample.table_args Sample.table_operator
           "public" "orders" "c"); reflexivity.
Defined.

(** ** One escaped literal *)

Module ReOneLiteral.
Import PyStr Re Rule StrFacts ReFacts ReMore ReLines.

Lemma has_quote_pair_inside (a b : string) :
  has_quote_pair (a +:+ two_quotes +:+ b) = true.
Proof.
  induction a as [|c a IH]; [reflexivity|].
  change (String c a +:+ two_quotes +:+ b)
    with (String c (a +:+ two_quotes +:+ b)).
  destruct (a +:+ two_quotes +:+ b) as [|c' r] eqn:E; [discriminate IH|].
  rewrite ReSingleLine.has_quote_pair_cons, IH. apply orb_true_r.
Qed.

Lemma append_longer (a a' b b' : string) :
  a +:+ b = a' +:+ b' -> String.length a < String.length a' ->
  exists c x, a' = a +:+ String c x /\ b = String c x +:+ b'.
Proof.
  revert a'. induction a as [|c a IH]; intros [|c' a'] E Hlen;
    simpl in Hlen; try lia.
  - exists c', a'. split; [reflexivity | exact E].
  - simpl in E. injection E as <- E.
    destruct (IH a' E ltac:(lia)) as (d & x & -> & ->).
    exists d, x. split; reflexivity.
Qed.

(** The match at the head is the given one when no doubled quote follows. *)
Lemma match_here_last_pair (inner post : string) :
  inner <> "" -> no_newline inner = true ->
  has_quote_pair (String squote post) = false ->
  match_here (two_quotes +:+ inner +:+ two_quotes +:+ post)
  = Some (inner, post).
Proof.
  intros Hne Hnl Hpost. apply greedy_match_computed. split.
  - repeat split; assumption.
  - intros inner' post' (E & _ & _).
    destruct (Nat.le_gt_cases (String.length inner') (String.length inner))
      as [H|H]; [exact H | exfalso].
    apply append_inj in E as [_ E]; [|reflexivity].
    destruct (append_longer _ _ _ _ E H) as (c & x & _ & Ex).
    cbn [two_quotes String.append] in Ex. injection Ex as _ Ex.
    rewrite Ex in Hpost.
    pose proof (has_quote_pair_inside x post') as Hin.
    change (x +:+ two_quotes +:+ post')
      with (x +:+ String squote (String squote post')) in Hin.
    congruence.
Qed.

(** No match begins where the text has no doubled quote yet. *)
Lemma match_here_before_pair (c : ascii) (pre rest : string) :
  has_quote_pair (String c (pre +:+ String squote "")) = false ->
  match_here (String c (pre +:+ String squote rest)) = None.
Proof.
  intros H. destruct pre as [|c' pre]; cbn [String.append] in *.
  - cbn [match_here]. cbn [has_quote_pair] in H.
    apply orb_false_iff in H as [H _]. now rewrite H.
  - cbn [match_here]. rewrite ReSingleLine.has_quote_pair_cons in H.
    apply orb_false_iff in H as [H _]. now rewrite H.
Qed.

Lemma one_literal_unescaped (pre inner post : string) :
  has_quote_pair (pre +:+ String squote "") = false ->
  inner <> "" -> no_newline inner = true ->
  has_quote_pair (String squote post) = false ->
  sub_quotes (pre +:+ two_quotes +:+ inner +:+ two_quotes +:+ post)
  = pre +:+ String squote (inner +:+ String squote post).
Proof.
  intros Hpre Hne Hnl Hpost. induction pre as [|c pre IH].
  - cbn [String.append]. rewrite sub_quotes_unfold.
    change (String squote (String squote (inner +:+ two_quotes +:+ post)))
      with (two_quotes +:+ inner +:+ two_quotes +:+ post).
    rewrite (match_here_last_pair inner post Hne Hnl Hpost).
    do 3 f_equal. unfold sub_quotes. apply sub_fuel_no_pair.
    exact (has_quote_pair_tail _ _ Hpost).
  - change (String c pre +:+ two_quotes +:+ inner +:+ two_quotes +:+ post)
      with (String c (pre +:+ String squote
                        (String squote (inner +:+ two_quotes +:+ post)))).
    rewrite sub_quotes_unfold.
    rewrite (match_here_before_pair c pre _ Hpre).
    change (String c pre +:+ String squote (inner +:+ String squote post))
      with (String c (pre +:+ String squote (inner +:+ String squote post))).
    f_equal. apply IH. exact (has_quote_pair_tail _ _ Hpre).
Qed.

End ReOneLiteral.

(** X15.  A select text with one escaped literal is unescaped as meant:
    when the only doubled quotes are those around a non-empty inner text
    without line feed, each of the two pairs becomes a single quote and the
    rest of the text stays as it is. *)
Theorem sub_quotes_unescapes_one_literal :
  forall pre inner post : string,
    has_quote_pair (pre +:+ String PyStr.squote "") = false ->
    inner <> "" ->
    PyStr.no_newline inner = true ->
    has_quote_pair (String PyStr.squote post) = false ->
    Re.sub_quotes
      (pre +:+ Rule.two_quotes +:+ inner +:+ Rule.two_quotes +:+ post)
    = pre +:+ String PyStr.squote (inner +:+ String PyStr.squote post).
Proof. exact ReOneLiteral.one_literal_unescaped. Qed.

Lemma sub_quotes_unescapes_one_literal_witness :
  Re.sub_quotes "select * from t where c = ''abc'' limit 1"
  = "select * from t where c = 'abc' limit 1".
Proof.
  apply (sub_quotes_unescapes_one_literal
           "select * from t where c = " "abc" " limit 1");
    [reflexivity | discriminate | reflexivity | reflexivity].
Defined.

(** X16.  Data API arguments given at construction reach the Data API
    hook unchanged: an operator constructed with a non-empty dictionary of
    them never calls [run], and once the credentials clause is there its
    one hook call is [execute_query] with the connection id and the
    parameters of the construction and with that dictionary. *)
Theorem data_api_kwargs_reach_execute_query :
  forall (pyobj : Type) (a : init_args pyobj) (self : operator pyobj)
         (env : collaborators pyobj) (d : gmap string pyobj)
         (credentials_block : string),
    init a = inr self ->
    arg_redshift_data_api_kwargs a = Some d ->
    d <> ∅ ->
    outcome (resolve_credentials env self) = inr credentials_block ->
    List.filter is_submission (trace (execute env self))
    = [ExecuteQuery (arg_redshift_conn_id a)
         (unload_query self credentials_block) (arg_parameters a) d].
Proof.
  intros pyobj a self env d cb Hi Hk Hne Hcb.
  destruct (init_inr_fields a self Hi) as (Hd & Hc & _ & Hp & _ & _).
  rewrite Hk in Hd. change (default ∅ (Some d)) with d in Hd.
  assert (Htruthy : dict_truthy (redshift_data_api_kwargs self) = true).
  { rewrite Hd. unfold dict_truthy. apply negb_true_iff, Nat.eqb_neq.
    intros Hs. now apply map_size_empty_iff in Hs. }
  pose proof (resolve_credentials_no_submission env self) as Hn.
  destruct (resolve_credentials env self) as [tr r] eqn:Hr.
  unfold trace, outcome in Hn, Hcb; cbn [fst snd] in Hn, Hcb. subst r.
  rewrite (execute_with_credentials env self tr cb Hr),
    (submission_data_api env self cb Htruthy), Hd, Hc, Hp.
  unfold call, trace, outcome; cbn [fst snd].
  destruct (execute_query env _ _ _ _) as [e|[]]; cbn [fst];
    now rewrite List.filter_app, Hn.
Qed.

Lemma data_api_kwargs_reach_execute_query_witness :
  List.filter is_submission
    (trace (execute Sample.keys_env Sample.data_api_operator))
  = [ExecuteQuery "redshift_default"
       (unload_query Sample.data_api_operator
          "aws_access_key_id=AKIA;aws_secret_access_key=secret")
       tt {[ "database" := tt ]}].
Proof.
  apply (data_api_kwargs_reach_execute_query unit
           (Sample.set_kwargs (Some {[ "database" := tt ]}) Sample.table_args)
           Sample.data_api_operator Sample.keys_env {[ "database" := tt ]});
    try reflexivity.
  intros H. apply (f_equal (fun m => m !! "database")) in H. discriminate H.
Defined.

(** X17.  [_build_unload_query] rewrites every select text by one pass
    from left to right: each occurrence of two quotes, inner text,
    two quotes becomes quote, inner text, quote, where the inner text is
    non-empty, has no line feed and is matched greedily (the longest one);
    the pass resumes behind the occurrence, so nothing is rewritten twice.
    The rewritten text is the only one the rule [Rule.rewrites_to] allows.
    Two escaped literals on a line are thereby merged: the text
    SELECT * FROM t WHERE name = ''O''Brien'' becomes
    SELECT * FROM t WHERE name = 'O''Brien'. *)
Theorem build_unload_query_unescapes_greedily :
  forall (pyobj : Type) (self : operator pyobj)
         (credentials_block select_query s3_key unload_options : string),
    _build_unload_query self credentials_block select_query s3_key
      unload_options
    = unload_template (s3_bucket self) (Re.sub_quotes select_query) s3_key
        credentials_block unload_options
    /\ (forall out,
          Rule.rewrites_to select_query out <-> out = Re.sub_quotes select_query)
    /\ Re.sub_quotes Sample.obrien = "SELECT * FROM t WHERE name = 'O''Brien'".
Proof.
  intros. split; [reflexivity|]. split; [|reflexivity].
  intros out. apply ReFacts.rewrites_to_sub_quotes.
Qed.

Lemma build_unload_query_unescapes_greedily_witness :
  Rule.rewrites_to Sample.obrien "SELECT * FROM t WHERE name = 'O''Brien'".
Proof.
  apply (proj1 (proj2 (build_unload_query_unescapes_greedily
                         unit Sample.table_operator "" Sample.obrien "" ""))).
  reflexivity.
Defined.
